(** * pyboard_sync: a shallow embedding of [watch.py]

    The development models the [PyboardSync] event handler of [watch.py]:
    the path mapper [get_drive_path], the reboot signaler [reboot_board],
    the two sync actions [upload_file] and [delete_file] with their
    recursive retry, the constructor check and the three watchdog
    callbacks.

    Python values are modelled as follows.
    - [str] is [string]; [bytes] is [list byte].
    - The volume, the host file system and the serial line are one
      explicit [world] that every effectful call threads through; the
      calls a run makes are recorded, in order, in [trace].
    - An exception is a value of [exn]; a computation is a function
      [world -> result A * world], so the effects made before a raise
      are kept, as in Python.
    - [time.sleep] takes seconds as a float; the model records the
      duration in milliseconds ([1] is [1000], [0.1] is [100]). *)

From Stdlib Require Import ZArith Lia Bool List Strings.Ascii Strings.String Strings.Byte.
From stdpp Require Import base option gmap strings.

Import ListNotations.
Local Open Scope string_scope.
Local Open Scope Z_scope.

(** ** Python string operations used by the script *)

Module PyStr.

(** [s[n:]] for [0 <= n]. *)
Fixpoint drop (n : nat) (s : string) : string :=
  match n, s with
  | O, _ => s
  | S _, EmptyString => EmptyString
  | S n', String _ s' => drop n' s'
  end.

(** [s.startswith(pre)] *)
Fixpoint startswith (s pre : string) {struct pre} : bool :=
  match pre with
  | EmptyString => true
  | String a pre' =>
      match s with
      | EmptyString => false
      | String b s' => Ascii.eqb a b && startswith s' pre'
      end
  end.

(** The scan of [str.replace] for a non-empty [old]: left to right,
    every non-overlapping occurrence of [old] is replaced by [new].
    [skip] counts the characters of a matched occurrence that are still
    to be stepped over. *)
Fixpoint replace_scan (old new : string) (skip : nat) (s : string) : string :=
  match s with
  | EmptyString => EmptyString
  | String c s' =>
      match skip with
      | S k => replace_scan old new k s'
      | O =>
          if startswith s old
          then String.append new (replace_scan old new (Nat.pred (String.length old)) s')
          else String c (replace_scan old new O s')
      end
  end.

(** With an empty [old], [new] is inserted before every character and
    at the end. *)
Fixpoint interleave (new : string) (s : string) : string :=
  match s with
  | EmptyString => new
  | String c s' => String.append new (String c (interleave new s'))
  end.

(** [s.replace(old, new)] *)
Definition replace (old new s : string) : string :=
  match old with
  | EmptyString => interleave new s
  | String _ _ => replace_scan old new O s
  end.

(** [sub in s] *)
Fixpoint contains (sub s : string) : bool :=
  startswith s sub ||
  match s with
  | EmptyString => false
  | String _ s' => contains sub s'
  end.

(** [s.encode()]: UTF-8. A character below 128 is one byte; a character
    from 128 to 255 is two. *)
Definition encode_char (c : ascii) : list byte :=
  let n := N_of_ascii c in
  if (n <? 128)%N then [byte_of_ascii c]
  else
    match Byte.of_N (N.lor 192 (N.shiftr n 6)), Byte.of_N (N.lor 128 (N.land n 63)) with
    | Some hi, Some lo => [hi; lo]
    | _, _ => []
    end.

Fixpoint encode (s : string) : list byte :=
  match s with
  | EmptyString => []
  | String c s' => (encode_char c ++ encode s')%list
  end.

End PyStr.

(** ** Exceptions and results *)

(** The subclasses of [OSError] the modelled calls raise. [except
    OSError] catches all of them. *)
Inductive os_error : Type :=
| FileNotFoundError
| PermissionError
| SameFileError
| SerialException.

Inductive exn : Type :=
| OSError (e : os_error)
| IndexError
| Exception (msg : string).

Inductive result (A : Type) : Type :=
| Ok (a : A)
| Raise (e : exn).
Arguments Ok {A} a.
Arguments Raise {A} e.

(** ** The session object *)

(** The [args] namespace handed to the constructor. [port] has no
    default in [parse_args], so it is [None] when the option is not
    given. *)
Record Args : Type := mkArgs {
  args_path : string;
  args_drive : string;
  args_verbose : bool;
  args_reboot : bool;
  args_port : option string;
  args_main : string
}.

(** The attributes of a [PyboardSync] instance. *)
Record PyboardSync : Type := mkPyboardSync {
  path : string;
  drive : string;
  verbose : bool;
  reboot : bool;
  port : option string;
  main_file : string
}.

(** ** [get_drive_path] *)

Definition is_sep (c : ascii) : bool :=
  (Ascii.eqb c "\"%char || Ascii.eqb c "/"%char)%bool.

Definition get_drive_path (self : PyboardSync) (src_path : string) : result string :=
  let real_path := PyStr.replace (path self) "" src_path in
  match real_path with
  | EmptyString => Raise IndexError
  | String c0 rest =>
      let real_path := if is_sep c0 then PyStr.drop 1 real_path else real_path in
      Ok (String.append (drive self) (String.append ":" real_path))
  end.

(** ** The world the script acts on *)

(** How a recorded call ended. *)
Inductive outcome : Type :=
| Done
| Failed (e : os_error).

(** The calls the script makes on its collaborators, as they appear in
    a run. *)
Inductive event : Type :=
| EPrint (s : string)
| ESleep (ms : Z)
| ERemove (p : string) (o : outcome)
| ECopyfile (src dst : string) (o : outcome)
| ESerial (port : option string) (baud : Z) (timeout : Z) (o : outcome)
| ESerialWrite (data : list byte) (o : outcome)
| ESerialClose.

(** [fs] maps a path (on the host or on the volume) to the contents of
    the file there. [faults] is what the environment does to the next
    fallible calls ([os.remove], [shutil.copyfile], [serial.Serial],
    [com.write]), one entry per call: [Some e] makes the call raise [e]
    (a busy, locked or unmounted destination, a port that refuses),
    [None] lets it run; past the end of the list nothing fails. *)
Record world : Type := mkWorld {
  fs : gmap string string;
  faults : list (option os_error)
}.

(** A computation returns a value or raises, leaves a world behind and
    emits the events of the calls it made. *)
Definition M (A : Type) : Type := world -> result A * world * list event.

Definition ret {A : Type} (a : A) : M A := fun w => (Ok a, w, []).

Definition raise {A : Type} (e : exn) : M A := fun w => (Raise e, w, []).

Definition bind {A B : Type} (m : M A) (k : A -> M B) : M B :=
  fun w =>
    match m w with
    | (Ok a, w1, t1) =>
        match k a w1 with
        | (r, w2, t2) => (r, w2, (t1 ++ t2)%list)
        end
    | (Raise e, w1, t1) => (Raise e, w1, t1)
    end.

Notation "x <- m ;; k" := (bind m (fun x => k))
  (at level 100, m at next level, right associativity).
Notation "m ;; k" := (bind m (fun _ => k))
  (at level 100, right associativity).

Definition lift {A : Type} (r : result A) : M A := fun w => (r, w, []).

Definition emit (e : event) : M unit := fun w => (Ok tt, w, [e]).

(** [try: body except OSError: handler]. Any other exception goes
    through; an exception of the handler is not caught. *)
Definition try_except_OSError (body handler : M unit) : M unit :=
  fun w =>
    match body w with
    | (Raise (OSError _), w1, t1) =>
        match handler w1 with
        | (r, w2, t2) => (r, w2, (t1 ++ t2)%list)
        end
    | other => other
    end.

(** The result, the world and the events of a run. *)
Definition res {A : Type} (x : result A * world * list event) : result A := fst (fst x).
Definition after {A : Type} (x : result A * world * list event) : world := snd (fst x).
Definition events {A : Type} (x : result A * world * list event) : list event := snd x.

(** *** Collaborators *)

Definition next_fault : M (option os_error) :=
  fun w =>
    match faults w with
    | [] => (Ok None, w, [])
    | f :: rest => (Ok f, mkWorld (fs w) rest, [])
    end.

Definition set_fs (m : gmap string string) : M unit :=
  fun w => (Ok tt, mkWorld m (faults w), []).

Definition get_fs : M (gmap string string) := fun w => (Ok (fs w), w, []).

Definition print (s : string) : M unit := emit (EPrint s).

Definition time_sleep (ms : Z) : M unit := emit (ESleep ms).

(** [os.remove(p)] *)
Definition os_remove (p : string) : M unit :=
  f <- next_fault ;;
  match f with
  | Some e => emit (ERemove p (Failed e)) ;; raise (OSError e)
  | None =>
      m <- get_fs ;;
      match m !! p with
      | Some _ => set_fs (delete p m) ;; emit (ERemove p Done)
      | None =>
          emit (ERemove p (Failed FileNotFoundError)) ;;
          raise (OSError FileNotFoundError)
      end
  end.

(** [shutil.copyfile(src, dst)]. A call that fails is one that is
    refused before the destination is opened (a missing source, the
    same file, a busy or unmounted volume): the file system is then as
    it was. A copy that breaks off after the destination was opened,
    leaving a truncated file there, is outside this model. *)
Definition shutil_copyfile (src dst : string) : M unit :=
  f <- next_fault ;;
  match f with
  | Some e => emit (ECopyfile src dst (Failed e)) ;; raise (OSError e)
  | None =>
      m <- get_fs ;;
      match m !! src with
      | None =>
          emit (ECopyfile src dst (Failed FileNotFoundError)) ;;
          raise (OSError FileNotFoundError)
      | Some data =>
          if String.eqb src dst
          then emit (ECopyfile src dst (Failed SameFileError)) ;;
               raise (OSError SameFileError)
          else set_fs (<[dst := data]> m) ;; emit (ECopyfile src dst Done)
      end
  end.

(** A [serial.Serial] object: whether its port is open. *)
Record Serial : Type := mkSerial { is_open : bool }.

(** [serial.Serial(port, baud, timeout=t)]: opens the port at once when
    one is given; with [None] the object is returned unopened. *)
Definition serial_Serial (p : option string) (baud timeout : Z) : M Serial :=
  match p with
  | None => emit (ESerial p baud timeout Done) ;; ret (mkSerial false)
  | Some _ =>
      f <- next_fault ;;
      match f with
      | Some e => emit (ESerial p baud timeout (Failed e)) ;; raise (OSError e)
      | None => emit (ESerial p baud timeout Done) ;; ret (mkSerial true)
      end
  end.

(** [com.write(data)] *)
Definition serial_write (com : Serial) (data : list byte) : M unit :=
  if is_open com then
    f <- next_fault ;;
    match f with
    | Some e => emit (ESerialWrite data (Failed e)) ;; raise (OSError e)
    | None => emit (ESerialWrite data Done)
    end
  else
    emit (ESerialWrite data (Failed SerialException)) ;;
    raise (OSError SerialException).

(** [com.close()] *)
Definition serial_close (com : Serial) : M unit := emit ESerialClose.

(** ** The methods of [PyboardSync] *)

Definition print_if_verbose (self : PyboardSync) (s : string) : M unit :=
  if verbose self then print s else ret tt.

(** Truth value of [self.port]: [None] and the empty string are false. *)
Definition truthy (p : option string) : bool :=
  match p with
  | None => false
  | Some EmptyString => false
  | Some (String _ _) => true
  end.

Definition PORT_MSG : string := "Port must be set when using reboot mode".

Definition __init__ (args : Args) : M PyboardSync :=
  let self :=
    mkPyboardSync (args_path args) (args_drive args) (args_verbose args)
                  (args_reboot args) (args_port args) (args_main args) in
  if reboot self && negb (truthy (port self))
  then raise (Exception PORT_MSG)
  else print_if_verbose self "Watching files" ;; ret self.

Definition ETX : string := String "003"%char EmptyString.
Definition EOT : string := String "004"%char EmptyString.

Definition reboot_board (self : PyboardSync) : M unit :=
  com <- serial_Serial (port self) 115200 1 ;;
  print_if_verbose self "Soft rebooting board" ;;
  serial_write com (PyStr.encode ETX) ;;
  time_sleep 100 ;;
  serial_write com (PyStr.encode EOT) ;;
  time_sleep 100 ;;
  serial_close com ;;
  print_if_verbose self "Soft rebooting complete".

Definition RETRY_MSG : string := "Failed to upload. Retrying in a second.".

Definition GIVE_UP_MSG : string :=
  String.append "Maximum retries exceeded. "
    (String.append "If you have an open REPL session, "
                   "please close it or send Ctrl+C to continue.").

(** The [try] block of [upload_file]. *)
Definition upload_body (self : PyboardSync) (src_path : string) : M unit :=
  drive_path <- lift (get_drive_path self src_path) ;;
  (if PyStr.contains (main_file self) src_path
   then print_if_verbose self (String.append "Removing " (main_file self)) ;;
        os_remove drive_path
   else ret tt) ;;
  shutil_copyfile src_path drive_path ;;
  if reboot self then reboot_board self else ret tt.

(** [upload_file] calls itself with [retries - 1] while [retries > 0];
    the recursion is on the number of retries left, [Z.to_nat retries]
    (0 for a negative budget, which takes the [else] branch at once). *)
Fixpoint upload_file_left (left : nat) (self : PyboardSync) (src_path : string) : M unit :=
  try_except_OSError (upload_body self src_path)
    match left with
    | S left' =>
        print_if_verbose self RETRY_MSG ;;
        time_sleep 1000 ;;
        upload_file_left left' self src_path
    | O => print_if_verbose self GIVE_UP_MSG
    end.

Definition upload_file (self : PyboardSync) (src_path : string) (retries : Z) : M unit :=
  upload_file_left (Z.to_nat retries) self src_path.

(** The [try] block of [delete_file]. *)
Definition delete_body (self : PyboardSync) (src_path : string) : M unit :=
  drive_path <- lift (get_drive_path self src_path) ;;
  os_remove drive_path ;;
  if reboot self then reboot_board self else ret tt.

Definition delete_file (self : PyboardSync) (src_path : string) (retries : Z) : M unit :=
  try_except_OSError (delete_body self src_path)
    (if retries >? 0
     then print_if_verbose self RETRY_MSG ;;
          time_sleep 1000 ;;
          upload_file self src_path (retries - 1)
     else print_if_verbose self GIVE_UP_MSG).

(** *** The watchdog callbacks *)

Definition on_modified (self : PyboardSync) (event_src_path : string) : M unit :=
  drive_path <- lift (get_drive_path self event_src_path) ;;
  print_if_verbose self (String.append "Modifying file at " drive_path) ;;
  upload_file self event_src_path 4.

Definition on_created (self : PyboardSync) (event_src_path : string) : M unit :=
  drive_path <- lift (get_drive_path self event_src_path) ;;
  print_if_verbose self (String.append "Creating file at " drive_path) ;;
  upload_file self event_src_path 4.

Definition on_deleted (self : PyboardSync) (event_src_path : string) : M unit :=
  drive_path <- lift (get_drive_path self event_src_path) ;;
  print_if_verbose self (String.append "Deleting file at " drive_path) ;;
  delete_file self event_src_path 4.

(** ** Counting the calls of a run *)

Definition is_copy (e : event) : bool :=
  match e with ECopyfile _ _ _ => true | _ => false end.

Definition is_copy_done (e : event) : bool :=
  match e with ECopyfile _ _ Done => true | _ => false end.

Definition is_remove (e : event) : bool :=
  match e with ERemove _ _ => true | _ => false end.

Definition is_remove_done (e : event) : bool :=
  match e with ERemove _ Done => true | _ => false end.

(** The one-second wait before a retry. *)
Definition is_backoff (e : event) : bool :=
  match e with ESleep ms => ms =? 1000 | _ => false end.

Definition is_print (e : event) : bool :=
  match e with EPrint _ => true | _ => false end.

(** Any call on the serial transport. *)
Definition is_serial (e : event) : bool :=
  match e with
  | ESerial _ _ _ _ | ESerialWrite _ _ | ESerialClose => true
  | _ => false
  end.

(** A reboot signal starts with the construction of the [Serial]
    object, once per call of [reboot_board]. *)
Definition is_reboot_signal (e : event) : bool :=
  match e with ESerial _ _ _ _ => true | _ => false end.

Definition count (f : event -> bool) (t : list event) : nat :=
  length (List.filter f t).

(** The first [n] entries of a fault schedule let the calls run. *)
Definition calm (n : nat) (l : list (option os_error)) : bool :=
  forallb (fun f => match f with None => true | Some _ => false end) (firstn n l).

(** A recorded call without its outcome. *)
Definition call_of (e : event) : event :=
  match e with
  | ERemove p _ => ERemove p Done
  | ECopyfile s d _ => ECopyfile s d Done
  | ESerial p b t _ => ESerial p b t Done
  | ESerialWrite d _ => ESerialWrite d Done
  | other => other
  end.

(** The calls of one reboot signal on the transport and the clock. *)
Definition reboot_protocol (p : option string) : list event :=
  [ ESerial p 115200 1 Done;
    ESerialWrite ["003"%byte] Done; ESleep 100;
    ESerialWrite ["004"%byte] Done; ESleep 100;
    ESerialClose ].

(** The path mapper as section 4.1 words it: the volume, a colon, and
    the source path after the root prefix with one leading separator
    removed. Kept apart from [get_drive_path] to compare the two. *)
Definition spec_map (r v p : string) : string :=
  let rel := PyStr.drop (String.length r) p in
  let rel :=
    match rel with
    | String c rest => if is_sep c then rest else rel
    | EmptyString => rel
    end in
  String.append v (String.append ":" rel).

(** Every attempt of an upload with [left] retries left ends in an
    [OSError]: the [try] block raises one in the world it is run in, and
    so does each retry in the world the previous attempt and the backoff
    left. *)
Fixpoint upload_always_fails (left : nat) (self : PyboardSync) (src_path : string)
    (w : world) : bool :=
  match upload_body self src_path w with
  | (Raise (OSError _), w1, _) =>
      match left with
      | O => true
      | S left' =>
          upload_always_fails left' self src_path
            (after ((print_if_verbose self RETRY_MSG ;; time_sleep 1000) w1))
      end
  | _ => false
  end.

(** The same for a delete: its own attempt, then the attempts of the
    retry it calls. *)
Definition delete_always_fails (retries : Z) (self : PyboardSync) (src_path : string)
    (w : world) : bool :=
  match delete_body self src_path w with
  | (Raise (OSError _), w1, _) =>
      if retries >? 0
      then upload_always_fails (Z.to_nat (retries - 1)) self src_path
             (after ((print_if_verbose self RETRY_MSG ;; time_sleep 1000) w1))
      else true
  | _ => false
  end.

(** ** Sessions, worlds and arguments used in the examples *)

Definition dot_session : PyboardSync :=
  mkPyboardSync "." "V" true false None "main.py".

Definition a_session : PyboardSync :=
  mkPyboardSync "/a" "V" true false None "main.py".

Definition com4_session : PyboardSync :=
  mkPyboardSync "/a" "V" true true (Some "COM4") "main.py".

Definition args_no_port : Args := mkArgs "/a" "V" true true None "main.py".

Definition args_empty_port : Args := mkArgs "/a" "V" true true (Some "") "main.py".

Definition args_com4 : Args := mkArgs "/a" "V" true true (Some "COM4") "main.py".

Definition args_no_reboot : Args := mkArgs "/a" "V" true false None "main.py".

Definition empty_world : world := mkWorld ∅ [].

Definition x_world : world :=
  mkWorld {[ "/a/x.txt" := "hello" ]} [Some PermissionError; Some PermissionError].

Definition first_sync_world : world :=
  mkWorld {[ "/a/main.py" := "print(1)" ]} [].

Definition busy_world : world :=
  mkWorld {[ "/a/x.txt" := "hello"; "V:x.txt" := "old" ]}
          (List.repeat (Some PermissionError) 5).

Definition volume_only_world : world :=
  mkWorld {[ "V:x.txt" := "old" ]} [Some PermissionError].

Definition both_world : world :=
  mkWorld {[ "/a/x.txt" := "new"; "V:x.txt" := "old" ]} [Some PermissionError].

(** ** Properties of runs *)

(** A run of [m] has at most [n] events that [f] selects. *)
Definition emits_at_most {A : Type} (f : event -> bool) (n : nat) (m : M A) : Prop :=
  forall w, (count f (events (m w)) <= n)%nat.

(** A computation raises nothing but [OSError]. *)
Definition raises_os_only {A : Type} (m : M A) : Prop :=
  forall w, match res (m w) with
            | Ok _ | Raise (OSError _) => True
            | Raise _ => False
            end.

(** The calls of a run on its collaborators, the console apart. *)
Definition transport_calls (t : list event) : list event :=
  List.filter (fun e => negb (is_print e)) t.

(** ** Further notions for the methods *)

Definition is_close (e : event) : bool :=
  match e with ESerialClose => true | _ => false end.

(** A [Serial] object constructed without a port to open. *)
Definition is_portless_serial (e : event) : bool :=
  match e with ESerial p _ _ _ => negb (truthy p) | _ => false end.

(** What [get_drive_path] does to [real_path] after the removal of the
    root: [real_path[1:]] when it starts with a separator. *)
Definition strip_sep (s : string) : string :=
  match s with
  | String c rest => if is_sep c then rest else s
  | EmptyString => s
  end.

(** The events of a call of [reboot_board] in which nothing fails. *)
Definition good_reboot (self : PyboardSync) : list event :=
  (ESerial (port self) 115200 1 Done
   :: (if verbose self then [EPrint "Soft rebooting board"] else [])
   ++ [ESerialWrite ["003"%byte] Done; ESleep 100;
       ESerialWrite ["004"%byte] Done; ESleep 100; ESerialClose]
   ++ (if verbose self then [EPrint "Soft rebooting complete"] else []))%list.

(** The events of [if self.reboot: self.reboot_board()] when nothing
    fails. *)
Definition reboot_if_enabled (self : PyboardSync) : list event :=
  if reboot self then good_reboot self else [].

(** A computation keeps a property of the file system. *)
Definition keeps_fs {A : Type} (I : gmap string string -> Prop) (m : M A) : Prop :=
  forall w, I (fs w) -> I (fs (after (m w))).

Definition main_world : world :=
  mkWorld {[ "/a/main.py" := "print(2)"; "V:main.py" := "print(1)" ]} [].

Definition main_refused_world : world :=
  mkWorld {[ "/a/main.py" := "print(2)"; "V:main.py" := "print(1)" ]}
          [None; Some PermissionError].

Definition plain_world : world :=
  mkWorld {[ "/a/x.txt" := "hello"; "V:x.txt" := "old" ]} [].

Definition quiet_session : PyboardSync :=
  mkPyboardSync "/a" "V" false true (Some "COM4") "main.py".

Definition is_sleep (e : event) : bool :=
  match e with ESleep _ => true | _ => false end.

(** The time a run spends in [time.sleep], in milliseconds. *)
Fixpoint slept (t : list event) : Z :=
  match t with
  | [] => 0
  | ESleep ms :: t' => ms + slept t'
  | _ :: t' => slept t'
  end.

(** A run of [m] sleeps for at most [n] milliseconds. *)
Definition sleeps_at_most {A : Type} (n : Z) (m : M A) : Prop :=
  forall w, slept (events (m w)) <= n.

Definition reboot_refused_world : world :=
  mkWorld {[ "/a/x.txt" := "hello" ]} [None; Some SerialException].

Definition source_only_world : world :=
  mkWorld {[ "/a/x.txt" := "hello" ]} [].

Definition domain_world : world :=
  mkWorld {[ "/a/domain.py" := "x = 1" ]} [].

(** What [os.remove] raises for a path that is not there: the error
    of the environment when it fails the call, [FileNotFoundError]
    otherwise. *)
Definition remove_absent_error (w : world) : os_error :=
  match faults w with
  | Some e :: _ => e
  | _ => FileNotFoundError
  end.

(** ** Strings *)

Section Strings.

Lemma startswith_refl (s : string) : PyStr.startswith s s = true.
Proof.
  induction s as [|c s IH]; simpl; [reflexivity|].
  rewrite Ascii.eqb_refl. exact IH.
Qed.

Lemma startswith_append (a s : string) :
  PyStr.startswith (String.append a s) a = true.
Proof.
  induction a as [|c a IH]; simpl; [reflexivity|].
  rewrite Ascii.eqb_refl. exact IH.
Qed.

(** Characters that are being stepped over leave nothing behind. *)
Lemma replace_scan_skip_all (old new : string) (s : string) :
  forall k : nat, (String.length s <= k)%nat -> PyStr.replace_scan old new k s = "".
Proof.
  induction s as [|c s IH]; intros k Hk; simpl in *; [reflexivity|].
  destruct k as [|k]; [lia|]. apply IH. lia.
Qed.

Lemma replace_scan_skip (old new a s : string) :
  PyStr.replace_scan old new (String.length a) (String.append a s)
  = PyStr.replace_scan old new O s.
Proof.
  induction a as [|c a IH]; simpl; [reflexivity | exact IH].
Qed.

(** Removing a non-empty root from a path that starts with it goes on
    into the rest of the path. *)
Lemma replace_root_prefix (r s : string) :
  r <> "" ->
  PyStr.replace r "" (String.append r s) = PyStr.replace r "" s.
Proof.
  destruct r as [|c r]; [congruence|]. intros _.
  unfold PyStr.replace.
  change (String.append (String c r) s) with (String c (String.append r s)).
  cbn [PyStr.replace_scan].
  change (String c (String.append r s)) with (String.append (String c r) s).
  rewrite startswith_append. cbn [String.length Nat.pred String.append].
  apply replace_scan_skip.
Qed.

Lemma replace_root_itself (r : string) : PyStr.replace r "" r = "".
Proof.
  destruct r as [|c r]; [reflexivity|].
  unfold PyStr.replace. cbn [PyStr.replace_scan].
  rewrite startswith_refl. cbn [String.length Nat.pred String.append].
  apply replace_scan_skip_all. lia.
Qed.

End Strings.

(** ** The path mapper *)

Section PathMapper.

(** The example of section 8 holds. *)
Example get_drive_path_example :
  get_drive_path a_session "/a/b/c" = Ok "V:b/c".
Proof. reflexivity. Qed.

(** What the mapper returns for a path under a non-empty root: the
    root is removed from the rest of the path as well. *)
Lemma get_drive_path_under_root (self : PyboardSync) (s : string) :
  path self <> "" ->
  get_drive_path self (String.append (path self) s)
  = match PyStr.replace (path self) "" s with
    | EmptyString => Raise IndexError
    | String c rest =>
        Ok (String.append (drive self)
              (String.append ":" (if is_sep c then rest
                                  else String c rest)))
    end.
Proof.
  intros Hr. unfold get_drive_path. rewrite replace_root_prefix by exact Hr.
  destruct (PyStr.replace (path self) "" s) as [|c rest]; [reflexivity|].
  destruct (is_sep c); reflexivity.
Qed.

Lemma drop_root (r s : string) :
  PyStr.drop (String.length r) (String.append r s) = s.
Proof. induction r as [|c r IH]; simpl; [destruct s; reflexivity | exact IH]. Qed.

(** The mapper does what section 4.1 says when the root does not occur
    again in the rest of the path and the rest is not empty. *)
Lemma get_drive_path_when_root_occurs_once (self : PyboardSync) (s : string) :
  path self <> "" ->
  PyStr.replace (path self) "" s = s ->
  s <> "" ->
  get_drive_path self (String.append (path self) s)
  = Ok (spec_map (path self) (drive self) (String.append (path self) s)).
Proof.
  intros Hr Hs Hne. rewrite get_drive_path_under_root by exact Hr.
  unfold spec_map. rewrite Hs, drop_root.
  destruct s as [|c rest]; [congruence|]. destruct (is_sep c); reflexivity.
Qed.

(** C4. The claim is that for a source path that starts with the root
    the mapper returns the volume, a colon and the rest of the path
    after the root prefix, one leading separator removed, the rest
    unchanged. The code removes every occurrence of the root: watching
    [.], the path [./main.py] is mapped to [V:mainpy], where the claim
    gives [V:main.py]. *)
Theorem get_drive_path_removes_every_occurrence :
  PyStr.startswith "./main.py" (path dot_session) = true /\
  get_drive_path dot_session "./main.py" = Ok "V:mainpy" /\
  spec_map (path dot_session) (drive dot_session) "./main.py" = "V:main.py" /\
  get_drive_path a_session "/a/a/b" = Ok "V:b" /\
  spec_map (path a_session) (drive a_session) "/a/a/b" = "V:a/b".
Proof. repeat split; reflexivity. Qed.

(** C9. [get_drive_path] raises [IndexError] exactly when removing the
    root from the source path leaves the empty string, as it does for
    the root path itself; it returns a path exactly when something is
    left. *)
Theorem get_drive_path_partial :
  (forall self p,
      get_drive_path self p = Raise IndexError <->
      PyStr.replace (path self) "" p = "") /\
  (forall self, get_drive_path self (path self) = Raise IndexError) /\
  (forall self p,
      PyStr.replace (path self) "" p <> "" <->
      exists d, get_drive_path self p = Ok d).
Proof.
  assert (H : forall self p,
             get_drive_path self p = Raise IndexError <->
             PyStr.replace (path self) "" p = "").
  { intros self p. unfold get_drive_path.
    destruct (PyStr.replace (path self) "" p) as [|c rest]; split; congruence. }
  split; [exact H|]. split.
  - intros self. apply H, replace_root_itself.
  - intros self p. unfold get_drive_path.
    destruct (PyStr.replace (path self) "" p) as [|c rest]; split.
    + congruence.
    + intros [d Hd]. discriminate.
    + intros _. eexists. reflexivity.
    + congruence.
Qed.

Lemma get_drive_path_partial_witness :
  (get_drive_path a_session "/a" = Raise IndexError <->
   PyStr.replace (path a_session) "" "/a" = "") /\
  get_drive_path a_session (path a_session) = Raise IndexError /\
  (PyStr.replace (path a_session) "" "/a/b" <> "" <->
   exists d, get_drive_path a_session "/a/b" = Ok d).
Proof.
  split; [apply (proj1 get_drive_path_partial a_session "/a")|].
  split; [apply (proj1 (proj2 get_drive_path_partial) a_session)|].
  apply (proj2 (proj2 get_drive_path_partial) a_session "/a/b").
Defined.

End PathMapper.

(** ** Runs and what they emit *)

Section Runs.

Lemma count_app (f : event -> bool) (t1 t2 : list event) :
  count f (t1 ++ t2)%list = (count f t1 + count f t2)%nat.
Proof. unfold count. rewrite List.filter_app, List.length_app. reflexivity. Qed.

Lemma count_nil (f : event -> bool) : count f [] = O.
Proof. reflexivity. Qed.

Lemma count_cons (f : event -> bool) (e : event) (t : list event) :
  count f (e :: t) = ((if f e then 1 else 0) + count f t)%nat.
Proof. unfold count. simpl. destruct (f e); reflexivity. Qed.

Lemma print_if_verbose_run (self : PyboardSync) (s : string) (w : world) :
  print_if_verbose self s w
  = (Ok tt, w, if verbose self then [EPrint s] else []).
Proof. unfold print_if_verbose. destruct (verbose self); reflexivity. Qed.

Lemma at_most_bind {A B : Type} (f : event -> bool) (n1 n2 : nat)
    (m : M A) (k : A -> M B) :
  emits_at_most f n1 m ->
  (forall a, emits_at_most f n2 (k a)) ->
  emits_at_most f (n1 + n2) (bind m k).
Proof.
  intros Hm Hk w. unfold bind. specialize (Hm w).
  destruct (m w) as [[[a|e] w1] t1]; unfold events in *; simpl in *; [|lia].
  specialize (Hk a w1). destruct (k a w1) as [[r w2] t2]; simpl in *.
  rewrite count_app. lia.
Qed.

Lemma quiet_bind {A B : Type} (f : event -> bool) (m : M A) (k : A -> M B) :
  emits_at_most f 0 m ->
  (forall a, emits_at_most f 0 (k a)) ->
  emits_at_most f 0 (bind m k).
Proof. intros Hm Hk. apply (at_most_bind f 0 0); assumption. Qed.

Lemma at_most_weaken {A : Type} (f : event -> bool) (n n' : nat) (m : M A) :
  (n <= n')%nat -> emits_at_most f n m -> emits_at_most f n' m.
Proof. intros Hle Hm w. specialize (Hm w). lia. Qed.

Lemma quiet_ret {A : Type} (f : event -> bool) (a : A) : emits_at_most f 0 (ret a).
Proof. intros w. reflexivity. Qed.

Lemma quiet_raise {A : Type} (f : event -> bool) (e : exn) :
  emits_at_most f 0 (@raise A e).
Proof. intros w. reflexivity. Qed.

Lemma quiet_lift {A : Type} (f : event -> bool) (r : result A) :
  emits_at_most f 0 (lift r).
Proof. intros w. reflexivity. Qed.

Lemma quiet_emit (f : event -> bool) (e : event) :
  f e = false -> emits_at_most f 0 (emit e).
Proof. intros He w. unfold emit, events, count. simpl. rewrite He. reflexivity. Qed.

Lemma at_most_emit (f : event -> bool) (e : event) : emits_at_most f 1 (emit e).
Proof. intros w. unfold emit, events, count. simpl. destruct (f e); simpl; lia. Qed.

Lemma quiet_next_fault (f : event -> bool) : emits_at_most f 0 next_fault.
Proof. intros w. unfold next_fault. destruct (faults w); reflexivity. Qed.

Lemma quiet_get_fs (f : event -> bool) : emits_at_most f 0 get_fs.
Proof. intros w. reflexivity. Qed.

Lemma quiet_set_fs (f : event -> bool) m : emits_at_most f 0 (set_fs m).
Proof. intros w. reflexivity. Qed.

(** Goes through a computation that emits nothing [f] selects. *)
Ltac quiet :=
  repeat first
    [ apply quiet_ret | apply quiet_raise | apply quiet_lift
    | apply quiet_next_fault | apply quiet_get_fs | apply quiet_set_fs
    | apply quiet_emit; reflexivity
    | apply quiet_bind; [|intro]
    | match goal with
      | |- emits_at_most _ _ (match ?x with _ => _ end) => destruct x
      end ].

Lemma quiet_print_if_verbose (f : event -> bool) (self : PyboardSync) (s : string) :
  f (EPrint s) = false -> emits_at_most f 0 (print_if_verbose self s).
Proof.
  intros Hf. unfold print_if_verbose, print. destruct (verbose self).
  - apply quiet_emit, Hf.
  - apply quiet_ret.
Qed.

Lemma reboot_board_no_copy (self : PyboardSync) :
  emits_at_most is_copy 0 (reboot_board self).
Proof.
  unfold reboot_board, serial_Serial, serial_write, serial_close, time_sleep,
    print_if_verbose, print.
  quiet.
Qed.

Lemma reboot_board_no_backoff (self : PyboardSync) :
  emits_at_most is_backoff 0 (reboot_board self).
Proof.
  unfold reboot_board, serial_Serial, serial_write, serial_close, time_sleep,
    print_if_verbose, print.
  quiet.
Qed.

Lemma os_remove_no_copy (p : string) : emits_at_most is_copy 0 (os_remove p).
Proof. unfold os_remove. quiet. Qed.

Lemma os_remove_no_backoff (p : string) : emits_at_most is_backoff 0 (os_remove p).
Proof. unfold os_remove. quiet. Qed.

Lemma shutil_copyfile_no_backoff (src dst : string) :
  emits_at_most is_backoff 0 (shutil_copyfile src dst).
Proof. unfold shutil_copyfile. quiet. Qed.

Lemma shutil_copyfile_one_copy (src dst : string) :
  emits_at_most is_copy 1 (shutil_copyfile src dst).
Proof.
  unfold shutil_copyfile.
  apply (at_most_bind is_copy 0 1); [apply quiet_next_fault|].
  intros [e|].
  - apply (at_most_bind is_copy 1 0); [apply at_most_emit | intro; apply quiet_raise].
  - apply (at_most_bind is_copy 0 1); [apply quiet_get_fs|].
    intros m. destruct (m !! src) as [data|].
    + destruct (String.eqb src dst).
      * apply (at_most_bind is_copy 1 0); [apply at_most_emit | intro; apply quiet_raise].
      * apply (at_most_bind is_copy 0 1); [apply quiet_set_fs | intro; apply at_most_emit].
    + apply (at_most_bind is_copy 1 0); [apply at_most_emit | intro; apply quiet_raise].
Qed.

(** One attempt copies at most once and never backs off. *)
Lemma upload_body_one_copy (self : PyboardSync) (src : string) :
  emits_at_most is_copy 1 (upload_body self src).
Proof.
  unfold upload_body.
  apply (at_most_bind is_copy 0 1); [apply quiet_lift|]. intros dst.
  apply (at_most_bind is_copy 0 1).
  { destruct (PyStr.contains (main_file self) src); [|apply quiet_ret].
    apply quiet_bind; [apply quiet_print_if_verbose; reflexivity|].
    intros _. apply os_remove_no_copy. }
  intros _. apply (at_most_bind is_copy 1 0); [apply shutil_copyfile_one_copy|].
  intros _. destruct (reboot self); [apply reboot_board_no_copy | apply quiet_ret].
Qed.

Lemma upload_body_no_backoff (self : PyboardSync) (src : string) :
  emits_at_most is_backoff 0 (upload_body self src).
Proof.
  unfold upload_body.
  apply quiet_bind; [apply quiet_lift|]. intros dst.
  apply quiet_bind.
  { destruct (PyStr.contains (main_file self) src); [|apply quiet_ret].
    apply quiet_bind; [apply quiet_print_if_verbose; reflexivity|].
    intros _. apply os_remove_no_backoff. }
  intros _. apply quiet_bind; [apply shutil_copyfile_no_backoff|].
  intros _. destruct (reboot self); [apply reboot_board_no_backoff | apply quiet_ret].
Qed.

End Runs.

(** ** The retry of the sync actions *)

Section Retry.

Variable self : PyboardSync.
Variable src : string.

Lemma try_except_run (body handler : M unit) (w : world) :
  try_except_OSError body handler w
  = match res (body w) with
    | Raise (OSError _) =>
        (res (handler (after (body w))), after (handler (after (body w))),
         (events (body w) ++ events (handler (after (body w))))%list)
    | _ => body w
    end.
Proof.
  unfold try_except_OSError, res, after, events.
  destruct (body w) as [[[[]|[e| |msg]] w1] t1]; simpl; try reflexivity.
  destruct (handler w1) as [[r w2] t2]; reflexivity.
Qed.

(** The notice and the wait before a retry leave the world as it is. *)
Lemma backoff_run (m : M unit) (w : world) :
  (print_if_verbose self RETRY_MSG ;; time_sleep 1000 ;; m) w
  = (res (m w), after (m w),
     ((if verbose self then [EPrint RETRY_MSG] else []) ++ ESleep 1000 :: events (m w))%list).
Proof.
  unfold bind. rewrite print_if_verbose_run. unfold time_sleep, emit, res, after, events.
  destruct (m w) as [[r w1] t1]; reflexivity.
Qed.

Lemma count_backoff_notice (f : event -> bool) :
  f (EPrint RETRY_MSG) = false ->
  count f (if verbose self then [EPrint RETRY_MSG] else []) = O.
Proof. intros Hf. destruct (verbose self); unfold count; simpl; [rewrite Hf|]; reflexivity. Qed.

(** [upload_file] as the source has it, on the integer budget. *)
Lemma upload_file_unfold (retries : Z) :
  upload_file self src retries
  = try_except_OSError (upload_body self src)
      (if retries >? 0
       then print_if_verbose self RETRY_MSG ;;
            time_sleep 1000 ;;
            upload_file self src (retries - 1)
       else print_if_verbose self GIVE_UP_MSG).
Proof.
  unfold upload_file. destruct (retries >? 0) eqn:Hr.
  - replace (Z.to_nat retries) with (S (Z.to_nat (retries - 1))) by lia. reflexivity.
  - replace (Z.to_nat retries) with O by lia. reflexivity.
Qed.

Lemma upload_file_left_unfold (left : nat) :
  upload_file_left left self src
  = try_except_OSError (upload_body self src)
      match left with
      | S left' =>
          print_if_verbose self RETRY_MSG ;;
          time_sleep 1000 ;;
          upload_file_left left' self src
      | O => print_if_verbose self GIVE_UP_MSG
      end.
Proof. destruct left; reflexivity. Qed.

Lemma upload_file_left_copies (left : nat) :
  forall w, (count is_copy (events (upload_file_left left self src w)) <= left + 1)%nat.
Proof.
  induction left as [|left IH]; intros w; simpl; rewrite try_except_run;
    pose proof (upload_body_one_copy self src w) as Hb;
    destruct (res (upload_body self src w)) as [[]|[e| |msg]]; try lia.
  - rewrite print_if_verbose_run. unfold events at 1. simpl.
    rewrite count_app. destruct (verbose self); unfold count at 2; simpl; lia.
  - rewrite backoff_run. unfold events at 1. simpl.
    rewrite !count_app, count_backoff_notice by reflexivity.
    change (ESleep 1000 :: ?t) with ([ESleep 1000] ++ t)%list.
    rewrite count_app. specialize (IH (after (upload_body self src w))).
    unfold count at 2. simpl. lia.
Qed.

Lemma upload_file_left_backoffs (left : nat) :
  forall w, (count is_backoff (events (upload_file_left left self src w)) <= left)%nat.
Proof.
  induction left as [|left IH]; intros w; simpl; rewrite try_except_run;
    pose proof (upload_body_no_backoff self src w) as Hb;
    destruct (res (upload_body self src w)) as [[]|[e| |msg]]; try lia.
  - rewrite print_if_verbose_run. unfold events at 1. simpl.
    rewrite count_app. destruct (verbose self); unfold count at 2; simpl; lia.
  - rewrite backoff_run. unfold events at 1. simpl.
    rewrite !count_app, count_backoff_notice by reflexivity.
    change (ESleep 1000 :: ?t) with ([ESleep 1000] ++ t)%list.
    rewrite count_app. specialize (IH (after (upload_body self src w))).
    unfold count at 2. simpl. lia.
Qed.

End Retry.

(** ** The reboot signaler *)

Section Reboot.

Lemma reboot_board_run (self : PyboardSync) (p : string) (m : gmap string string)
    (l : list (option os_error)) :
  port self = Some p ->
  calm 3 l = true ->
  reboot_board self (mkWorld m l)
  = (Ok tt, mkWorld m (skipn 3 l),
     (ESerial (Some p) 115200 1 Done
      :: (if verbose self then [EPrint "Soft rebooting board"] else [])
      ++ [ESerialWrite ["003"%byte] Done; ESleep 100;
          ESerialWrite ["004"%byte] Done; ESleep 100; ESerialClose]
      ++ (if verbose self then [EPrint "Soft rebooting complete"] else []))%list).
Proof.
  intros Hp Hl. unfold reboot_board. rewrite Hp.
  destruct l as [|[e1|] [|[e2|] [|[e3|] l]]]; try discriminate Hl;
    unfold print_if_verbose; destruct (verbose self); reflexivity.
Qed.

(** C7. The calls [reboot_board] makes on the serial transport and the
    clock are, in this order: open the configured port at 115200 baud
    with a read timeout of one second, write the byte 0x03, wait 100 ms,
    write the byte 0x04, wait 100 ms, close. Every invocation makes an
    initial part of this sequence and nothing else (it stops only at a
    call that raises), and all of it when the transport does not fail. *)
Theorem reboot_board_protocol (self : PyboardSync) (w : world) :
  List.map call_of (transport_calls (events (reboot_board self w)))
    `prefix_of` reboot_protocol (port self) /\
  (forall p, port self = Some p -> calm 3 (faults w) = true ->
     res (reboot_board self w) = Ok tt /\
     transport_calls (events (reboot_board self w)) = reboot_protocol (Some p) /\
     count is_reboot_signal (events (reboot_board self w)) = 1%nat).
Proof.
  split.
  - destruct w as [m l]. unfold reboot_board, print_if_verbose.
    destruct (port self) as [p|]; destruct (verbose self);
      destruct l as [|[e1|] [|[e2|] [|[e3|] l]]];
      eexists; reflexivity.
  - intros p Hp Hl. destruct w as [m l]. simpl in Hl.
    rewrite (reboot_board_run self p m l Hp Hl).
    destruct (verbose self); repeat split; reflexivity.
Qed.

Lemma reboot_board_protocol_witness :
  List.map call_of (transport_calls (events (reboot_board com4_session (mkWorld ∅ []))))
    `prefix_of` reboot_protocol (Some "COM4") /\
  res (reboot_board com4_session (mkWorld ∅ [])) = Ok tt /\
  transport_calls (events (reboot_board com4_session (mkWorld ∅ [])))
  = reboot_protocol (Some "COM4") /\
  count is_reboot_signal (events (reboot_board com4_session (mkWorld ∅ []))) = 1%nat.
Proof.
  split.
  - apply (proj1 (reboot_board_protocol com4_session (mkWorld ∅ []))).
  - apply (proj2 (reboot_board_protocol com4_session (mkWorld ∅ [])) "COM4");
      reflexivity.
Defined.

End Reboot.

(** ** Uploads *)

Section Upload.

Variable self : PyboardSync.
Variable src : string.

Lemma bind_lift_ok {A B : Type} (a : A) (k : A -> M B) (w : world) :
  bind (lift (Ok a)) k w = k a w.
Proof. unfold bind, lift. destruct (k a w) as [[r w2] t2]. reflexivity. Qed.

Lemma calm_next (n : nat) (l : list (option os_error)) :
  calm (S n) l = true -> l = [] \/ exists l', l = None :: l' /\ calm n l' = true.
Proof.
  destruct l as [|[e|] l']; simpl; intros H; [left; reflexivity | discriminate |].
  right. exists l'. split; [reflexivity | exact H].
Qed.

(** An attempt on a file that is not the main file, with a fault on
    the copy. *)
Lemma upload_body_copy_fault (dst : string) (m : gmap string string)
    (e : os_error) (l : list (option os_error)) :
  PyStr.contains (main_file self) src = false ->
  get_drive_path self src = Ok dst ->
  upload_body self src (mkWorld m (Some e :: l))
  = (Raise (OSError e), mkWorld m l, [ECopyfile src dst (Failed e)]).
Proof. intros Hc Hd. unfold upload_body. rewrite Hd, Hc. reflexivity. Qed.

(** An attempt on a file that is not the main file, with nothing in
    its way. *)
Lemma upload_body_ok (dst data : string) (m : gmap string string)
    (l : list (option os_error)) :
  PyStr.contains (main_file self) src = false ->
  get_drive_path self src = Ok dst ->
  m !! src = Some data ->
  String.eqb src dst = false ->
  calm 4 l = true ->
  (reboot self = true -> truthy (port self) = true) ->
  exists l' t,
    upload_body self src (mkWorld m l)
    = (Ok tt, mkWorld (<[dst := data]> m) l', ECopyfile src dst Done :: t) /\
    count is_copy t = O /\ count is_backoff t = O.
Proof.
  intros Hc Hd Hsrc Hne Hl Hport. unfold upload_body. rewrite Hd, Hc.
  destruct (calm_next 3 l Hl) as [->|(l' & -> & Hl')].
  - unfold shutil_copyfile, next_fault, get_fs, set_fs, emit, lift, ret, raise, bind.
    simpl. rewrite Hsrc, Hne. simpl. destruct (reboot self) eqn:Hr.
    + specialize (Hport eq_refl). destruct (port self) as [p|] eqn:Hp; [|discriminate].
      rewrite (reboot_board_run self p _ [] Hp eq_refl).
      eexists _, _. split; [reflexivity|]. destruct (verbose self); split; reflexivity.
    + eexists _, _. split; [reflexivity|]. split; reflexivity.
  - unfold shutil_copyfile, next_fault, get_fs, set_fs, emit, lift, ret, raise, bind.
    simpl. rewrite Hsrc, Hne. simpl. destruct (reboot self) eqn:Hr.
    + specialize (Hport eq_refl). destruct (port self) as [p|] eqn:Hp; [|discriminate].
      rewrite (reboot_board_run self p _ l' Hp Hl').
      eexists _, _. split; [reflexivity|]. destruct (verbose self); split; reflexivity.
    + eexists _, _. split; [reflexivity|]. split; reflexivity.
Qed.

(** Two failed copies, then a good one. *)
Lemma upload_file_third_time (dst data : string) (m : gmap string string)
    (e1 e2 : os_error) (l : list (option os_error)) (left : nat) :
  PyStr.contains (main_file self) src = false ->
  get_drive_path self src = Ok dst ->
  m !! src = Some data ->
  String.eqb src dst = false ->
  calm 4 l = true ->
  (reboot self = true -> truthy (port self) = true) ->
  let r := upload_file_left (S (S left)) self src (mkWorld m (Some e1 :: Some e2 :: l)) in
  res r = Ok tt /\
  count is_backoff (events r) = 2%nat /\
  count is_copy_done (events r) = 1%nat /\
  count is_copy (events r) = 3%nat /\
  fs (after r) !! dst = Some data.
Proof.
  intros Hc Hd Hsrc Hne Hl Hport.
  destruct (upload_body_ok dst data m l Hc Hd Hsrc Hne Hl Hport)
    as (l' & t & Hok & Ht1 & Ht2).
  intros r. subst r. cbn [upload_file_left].
  rewrite try_except_run, (upload_body_copy_fault dst m e1 _ Hc Hd).
  cbn [res after events fst snd]. rewrite backoff_run.
  rewrite try_except_run, (upload_body_copy_fault dst m e2 _ Hc Hd).
  cbn [res after events fst snd]. rewrite backoff_run.
  rewrite upload_file_left_unfold, try_except_run, Hok. cbn [res after events fst snd fs].
  split; [reflexivity|].
  assert (Hdone : count is_copy_done t = O).
  { unfold count in *. clear -Ht1. induction t as [|[ | | |s d o| | | ] t IH]; simpl in *;
      try discriminate; auto. }
  repeat split.
  - destruct (verbose self); simpl;
      change (ECopyfile src dst Done :: t) with ([ECopyfile src dst Done] ++ t)%list;
      unfold count in *; simpl; rewrite ?List.filter_app, ?List.length_app; simpl;
      try rewrite Ht2; reflexivity.
  - destruct (verbose self); destruct e1, e2; simpl; unfold count in *; simpl;
      rewrite Hdone; reflexivity.
  - destruct (verbose self); simpl; unfold count in *; simpl; rewrite Ht1; reflexivity.
  - apply lookup_insert_eq.
Qed.

Lemma bind_run {A B : Type} (m : M A) (k : A -> M B) (w : world) :
  bind m k w
  = match res (m w) with
    | Ok a =>
        (res (k a (after (m w))), after (k a (after (m w))),
         (events (m w) ++ events (k a (after (m w))))%list)
    | Raise e => (Raise e, after (m w), events (m w))
    end.
Proof.
  unfold bind, res, after, events. destruct (m w) as [[[a|e] w1] t1]; simpl; [|reflexivity].
  destruct (k a w1) as [[r w2] t2]. reflexivity.
Qed.

Lemma count_done_le_copy (t : list event) :
  (count is_copy_done t <= count is_copy t)%nat.
Proof.
  unfold count. induction t as [|[ | | |s d [|e]| | | ] t IH]; simpl; lia.
Qed.

Lemma shutil_copyfile_done (dst : string) (w : world) :
  count is_copy_done (events (shutil_copyfile src dst w))
  = match res (shutil_copyfile src dst w) with Ok _ => 1%nat | Raise _ => O end.
Proof.
  destruct w as [m l].
  unfold shutil_copyfile, next_fault, get_fs, set_fs, emit, lift, ret, raise, bind.
  destruct l as [|[e|] l]; simpl; try reflexivity;
    (destruct (m !! src); [destruct (String.eqb src dst)|]; reflexivity).
Qed.

(** An attempt that returns has copied successfully exactly once. *)
Lemma upload_body_ok_one_done (w : world) :
  res (upload_body self src w) = Ok tt ->
  count is_copy_done (events (upload_body self src w)) = 1%nat.
Proof.
  unfold upload_body. destruct (get_drive_path self src) as [dst|e]; [|discriminate].
  rewrite bind_lift_ok, bind_run.
  set (pre := if PyStr.contains (main_file self) src
              then print_if_verbose self (String.append "Removing " (main_file self)) ;;
                   os_remove dst
              else ret tt).
  assert (Hpre : count is_copy_done (events (pre w)) = O).
  { assert (Hq : emits_at_most is_copy 0 pre).
    { subst pre. destruct (PyStr.contains (main_file self) src); [|apply quiet_ret].
      apply quiet_bind; [apply quiet_print_if_verbose; reflexivity|].
      intros _. apply os_remove_no_copy. }
    pose proof (Hq w). pose proof (count_done_le_copy (events (pre w))). lia. }
  destruct (res (pre w)) as [[]|e]; cbn [res after events fst snd]; [|discriminate].
  rewrite bind_run. pose proof (shutil_copyfile_done dst (after (pre w))) as Hcp.
  destruct (res (shutil_copyfile src dst (after (pre w)))) as [[]|e];
    cbn [res after events fst snd]; [|discriminate].
  intros _. rewrite !count_app, Hpre, Hcp.
  set (post := if reboot self then reboot_board self else ret tt).
  assert (Hq : emits_at_most is_copy 0 post).
  { subst post. destruct (reboot self); [apply reboot_board_no_copy | apply quiet_ret]. }
  pose proof (Hq (after (shutil_copyfile src dst (after (pre w))))).
  pose proof (count_done_le_copy
                (events (post (after (shutil_copyfile src dst (after (pre w))))))).
  lia.
Qed.

(** Two attempts that raise an [OSError] without a successful copy,
    then an attempt that returns. *)
Lemma upload_file_after_two_failures (left : nat) (w : world) (e1 e2 : os_error) :
  res (upload_body self src w) = Raise (OSError e1) ->
  count is_copy_done (events (upload_body self src w)) = O ->
  res (upload_body self src (after (upload_body self src w))) = Raise (OSError e2) ->
  count is_copy_done
    (events (upload_body self src (after (upload_body self src w)))) = O ->
  res (upload_body self src
         (after (upload_body self src (after (upload_body self src w))))) = Ok tt ->
  res (upload_file_left (S (S left)) self src w) = Ok tt /\
  count is_backoff (events (upload_file_left (S (S left)) self src w)) = 2%nat /\
  count is_copy_done (events (upload_file_left (S (S left)) self src w)) = 1%nat.
Proof.
  intros H1 C1 H2 C2 H3.
  pose proof (upload_body_ok_one_done _ H3) as C3.
  pose proof (upload_body_no_backoff self src w) as B1.
  pose proof (upload_body_no_backoff self src (after (upload_body self src w))) as B2.
  pose proof (upload_body_no_backoff self src
                (after (upload_body self src (after (upload_body self src w))))) as B3.
  cbn [upload_file_left].
  rewrite try_except_run, H1, backoff_run. cbn [res after events fst snd].
  rewrite try_except_run, H2, backoff_run. cbn [res after events fst snd].
  rewrite upload_file_left_unfold, try_except_run, H3.
  split; [exact H3|].
  rewrite !count_app, !count_cons, !count_app, !count_cons,
    !count_backoff_notice, C1, C2, C3 by reflexivity.
  cbn [is_backoff is_copy_done Z.eqb Pos.eqb]. lia.
Qed.

End Upload.

(** ** Failure is contained in the sync action *)

Section Containment.

Variable self : PyboardSync.
Variable src : string.

Lemma backoff_after (w : world) :
  after ((print_if_verbose self RETRY_MSG ;; time_sleep 1000) w) = w.
Proof. unfold bind. rewrite print_if_verbose_run. reflexivity. Qed.

(** No [OSError] leaves [upload_file]. *)
Lemma upload_file_left_no_oserror (left : nat) :
  forall w e, res (upload_file_left left self src w) <> Raise (OSError e).
Proof.
  induction left as [|left IH]; intros w e; rewrite upload_file_left_unfold,
    try_except_run;
    destruct (res (upload_body self src w)) as [[]|[e'| |msg]] eqn:Hb;
    try (rewrite Hb; discriminate).
  - rewrite print_if_verbose_run. discriminate.
  - rewrite backoff_run. cbn [res fst]. apply IH.
Qed.

(** When every attempt raises an [OSError], the upload returns, having
    used every retry, and the last thing it does is the notice that it
    gave up. *)
Lemma upload_gives_up (left : nat) :
  forall w,
    upload_always_fails left self src w = true ->
    res (upload_file_left left self src w) = Ok tt /\
    count is_backoff (events (upload_file_left left self src w)) = left /\
    (verbose self = true ->
     last (events (upload_file_left left self src w)) = Some (EPrint GIVE_UP_MSG)).
Proof.
  induction left as [|left IH]; intros w Hf; cbn [upload_always_fails] in Hf;
    rewrite upload_file_left_unfold, try_except_run;
    pose proof (upload_body_no_backoff self src w) as Hq;
    destruct (upload_body self src w) as [[[[]|[e| |msg]] w1] t1] eqn:Hb;
    try discriminate Hf; cbn [res after events fst snd] in *.
  - rewrite print_if_verbose_run. cbn [res after events fst snd]. split; [reflexivity|]. split.
    + rewrite count_app. destruct (verbose self); unfold count at 2; simpl; lia.
    + intros Hv. rewrite Hv. apply last_snoc.
  - rewrite backoff_after in Hf. destruct (IH w1 Hf) as (Hr & Hc & Hl).
    rewrite backoff_run. cbn [res after events fst snd]. split; [exact Hr|]. split.
    + rewrite !count_app, count_backoff_notice by reflexivity.
      change (ESleep 1000 :: ?t) with ([ESleep 1000] ++ t)%list.
      rewrite count_app, Hc. unfold count at 2. simpl. lia.
    + intros Hv. specialize (Hl Hv).
      rewrite last_app, last_app, last_cons, Hl. reflexivity.
Qed.

(** C6. An upload or a delete all of whose attempts raise an [OSError]
    returns normally: the give-up notice is the last thing it does (it
    is printed when the session is verbose), an upload has by then used
    its whole budget, and no [OSError] ever leaves either action. *)
Theorem sync_action_contains_failure (retries : Z) (w : world) :
  (upload_always_fails (Z.to_nat retries) self src w = true ->
   res (upload_file self src retries w) = Ok tt /\
   count is_backoff (events (upload_file self src retries w)) = Z.to_nat retries /\
   (verbose self = true ->
    last (events (upload_file self src retries w)) = Some (EPrint GIVE_UP_MSG))) /\
  (delete_always_fails retries self src w = true ->
   res (delete_file self src retries w) = Ok tt /\
   (verbose self = true ->
    last (events (delete_file self src retries w)) = Some (EPrint GIVE_UP_MSG))) /\
  (forall e, res (upload_file self src retries w) <> Raise (OSError e)) /\
  (forall e, res (delete_file self src retries w) <> Raise (OSError e)).
Proof.
  split; [|split; [|split]].
  - apply upload_gives_up.
  - unfold delete_always_fails, delete_file. rewrite try_except_run.
    destruct (delete_body self src w) as [[[[]|[e| |msg]] w1] t1] eqn:Hb;
      try discriminate; cbn [res after events fst snd].
    destruct (retries >? 0).
    + rewrite backoff_after. intros Hf.
      destruct (upload_gives_up _ w1 Hf) as (Hr & _ & Hl).
      rewrite backoff_run. cbn [res after events fst snd]. split; [exact Hr|].
      intros Hv. specialize (Hl Hv).
      rewrite last_app, last_app, last_cons. unfold upload_file. rewrite Hl. reflexivity.
    + intros _. rewrite print_if_verbose_run. cbn [res after events fst snd]. split; [reflexivity|].
      intros Hv. rewrite Hv. apply last_snoc.
  - intros e. apply upload_file_left_no_oserror.
  - intros e. unfold delete_file. rewrite try_except_run.
    destruct (res (delete_body self src w)) as [[]|[e'| |msg]] eqn:Hb;
      try (rewrite Hb; discriminate).
    destruct (retries >? 0).
    + rewrite backoff_run. cbn [res fst]. apply upload_file_left_no_oserror.
    + rewrite print_if_verbose_run. discriminate.
Qed.

End Containment.

(** ** The budget of an upload *)

Section Budget.

(** C5. [upload_file] is defined by recursion on the retries left
    ([upload_file_unfold] gives it back in the shape of the source), so
    every call returns. With a budget [n >= 0] it attempts at most
    [n + 1] copies and backs off at most [n] times; with the budget of
    4 of the callbacks that is at most 5 copies. When the copy of a file
    other than the main file is refused twice and nothing fails after
    that, the upload backs off for one second exactly twice and copies
    successfully exactly once, on the third of three copy attempts. The
    same counts hold for any session and path whenever the first two
    attempts raise an [OSError] without a successful copy and the third
    attempt returns. *)
Theorem upload_attempts_bounded (self : PyboardSync) (src : string) (n : Z) (w : world) :
  0 <= n ->
  (Z.of_nat (count is_copy (events (upload_file self src n w))) <= n + 1 /\
   Z.of_nat (count is_backoff (events (upload_file self src n w))) <= n) /\
  (count is_copy (events (upload_file self src 4 w)) <= 5)%nat /\
  (forall dst data e1 e2 l,
      2 <= n ->
      PyStr.contains (main_file self) src = false ->
      get_drive_path self src = Ok dst ->
      fs w !! src = Some data ->
      String.eqb src dst = false ->
      faults w = Some e1 :: Some e2 :: l ->
      calm 4 l = true ->
      (reboot self = true -> truthy (port self) = true) ->
      res (upload_file self src n w) = Ok tt /\
      count is_backoff (events (upload_file self src n w)) = 2%nat /\
      count is_copy_done (events (upload_file self src n w)) = 1%nat /\
      count is_copy (events (upload_file self src n w)) = 3%nat /\
      fs (after (upload_file self src n w)) !! dst = Some data) /\
  (forall e1 e2,
      2 <= n ->
      res (upload_body self src w) = Raise (OSError e1) ->
      count is_copy_done (events (upload_body self src w)) = O ->
      res (upload_body self src (after (upload_body self src w))) = Raise (OSError e2) ->
      count is_copy_done
        (events (upload_body self src (after (upload_body self src w)))) = O ->
      res (upload_body self src
             (after (upload_body self src (after (upload_body self src w))))) = Ok tt ->
      res (upload_file self src n w) = Ok tt /\
      count is_backoff (events (upload_file self src n w)) = 2%nat /\
      count is_copy_done (events (upload_file self src n w)) = 1%nat).
Proof.
  intros Hn. split; [|split; [|split]].
  - unfold upload_file.
    pose proof (upload_file_left_copies self src (Z.to_nat n) w).
    pose proof (upload_file_left_backoffs self src (Z.to_nat n) w).
    lia.
  - apply (upload_file_left_copies self src 4 w).
  - intros dst data e1 e2 l Hn2 Hc Hd Hsrc Hne Hf Hl Hport.
    destruct w as [m fl]. simpl in Hsrc, Hf. subst fl.
    unfold upload_file.
    replace (Z.to_nat n) with (S (S (Z.to_nat (n - 2)))) by lia.
    apply (upload_file_third_time self src dst data m e1 e2 l _ Hc Hd Hsrc Hne Hl Hport).
  - intros e1 e2 Hn2 H1 C1 H2 C2 H3. unfold upload_file.
    replace (Z.to_nat n) with (S (S (Z.to_nat (n - 2)))) by lia.
    apply (upload_file_after_two_failures self src _ w e1 e2 H1 C1 H2 C2 H3).
Qed.

Lemma upload_attempts_bounded_witness :
  0 <= 4 /\
  (Z.of_nat (count is_copy (events (upload_file a_session "/a/x.txt" 4 x_world))) <= 4 + 1 /\
   Z.of_nat (count is_backoff (events (upload_file a_session "/a/x.txt" 4 x_world))) <= 4) /\
  (count is_copy (events (upload_file a_session "/a/x.txt" 4 x_world)) <= 5)%nat /\
  (res (upload_file a_session "/a/x.txt" 4 x_world) = Ok tt /\
   count is_backoff (events (upload_file a_session "/a/x.txt" 4 x_world)) = 2%nat /\
   count is_copy_done (events (upload_file a_session "/a/x.txt" 4 x_world)) = 1%nat /\
   count is_copy (events (upload_file a_session "/a/x.txt" 4 x_world)) = 3%nat /\
   fs (after (upload_file a_session "/a/x.txt" 4 x_world)) !! "V:x.txt" = Some "hello") /\
  (res (upload_file com4_session "/a/x.txt" 4 x_world) = Ok tt /\
   count is_backoff (events (upload_file com4_session "/a/x.txt" 4 x_world)) = 2%nat /\
   count is_copy_done (events (upload_file com4_session "/a/x.txt" 4 x_world)) = 1%nat).
Proof.
  assert (H0 : 0 <= 4) by lia.
  destruct (upload_attempts_bounded a_session "/a/x.txt" 4 x_world H0) as (Hb & H5 & Hs & _).
  destruct (upload_attempts_bounded com4_session "/a/x.txt" 4 x_world H0) as (_ & _ & _ & Ht).
  split; [exact H0|]. split; [exact Hb|]. split; [exact H5|]. split.
  - apply (Hs "V:x.txt" "hello" PermissionError PermissionError []);
      solve [lia | reflexivity | discriminate].
  - apply (Ht PermissionError PermissionError); solve [lia | reflexivity].
Defined.

End Budget.

(** ** The first upload of the main file *)

Section MainFile.

Variable self : PyboardSync.
Variable src : string.

Lemma os_remove_absent (p : string) (w : world) :
  fs w !! p = None ->
  exists e,
    os_remove p w
    = (Raise (OSError e), mkWorld (fs w) (tl (faults w)), [ERemove p (Failed e)]).
Proof.
  intros Hp. destruct w as [m l]. simpl in Hp.
  unfold os_remove, next_fault, get_fs, set_fs, emit, raise, bind.
  destruct l as [|[e|] l]; simpl; rewrite ?Hp; eexists; reflexivity.
Qed.

(** An attempt on the main file stops at the removal when there is
    nothing to remove. *)
Lemma upload_body_main_absent (dst : string) (w : world) :
  PyStr.contains (main_file self) src = true ->
  get_drive_path self src = Ok dst ->
  fs w !! dst = None ->
  exists e,
    upload_body self src w
    = (Raise (OSError e), mkWorld (fs w) (tl (faults w)),
       ((if verbose self
         then [EPrint (String.append "Removing " (main_file self))] else [])
        ++ [ERemove dst (Failed e)])%list).
Proof.
  intros Hc Hd Hp. destruct (os_remove_absent dst w Hp) as [e He].
  exists e. unfold upload_body. rewrite Hd, Hc. rewrite bind_lift_ok.
  unfold bind. rewrite print_if_verbose_run, He. reflexivity.
Qed.

Lemma upload_main_absent (dst : string) (left : nat) :
  PyStr.contains (main_file self) src = true ->
  get_drive_path self src = Ok dst ->
  forall w,
    fs w !! dst = None ->
    upload_always_fails left self src w = true /\
    count is_copy (events (upload_file_left left self src w)) = O /\
    count is_remove (events (upload_file_left left self src w)) = S left /\
    count is_remove_done (events (upload_file_left left self src w)) = O /\
    fs (after (upload_file_left left self src w)) = fs w.
Proof.
  intros Hc Hd.
  induction left as [|left IH]; intros w Hp;
    destruct (upload_body_main_absent dst w Hc Hd Hp) as [e He];
    cbn [upload_always_fails]; rewrite upload_file_left_unfold, try_except_run, He;
    cbn [res after events fst snd].
  - split; [reflexivity|]. rewrite print_if_verbose_run. cbn [res after events fst snd fs].
    destruct (verbose self); repeat split.
  - rewrite backoff_after, backoff_run. cbn [res after events fst snd fs].
    destruct (IH (mkWorld (fs w) (tl (faults w))) Hp) as (Hf & H1 & H2 & H3 & H4).
    split; [exact Hf|]. rewrite !count_app, H4.
    change (ESleep 1000 :: ?t) with ([ESleep 1000] ++ t)%list.
    rewrite !count_app, H1, H2, H3.
    destruct (verbose self); repeat split.
Qed.

(** C10. An upload of a path that contains the main-file name, with
    nothing at the destination, never copies: every one of its
    [n + 1] attempts stops at the removal, which fails; the upload uses
    its whole budget, gives up, and leaves the file system as it was. *)
Theorem first_main_upload_never_copies (dst : string) (n : Z) (w : world) :
  0 <= n ->
  PyStr.contains (main_file self) src = true ->
  get_drive_path self src = Ok dst ->
  fs w !! dst = None ->
  res (upload_file self src n w) = Ok tt /\
  count is_copy (events (upload_file self src n w)) = O /\
  Z.of_nat (count is_remove (events (upload_file self src n w))) = n + 1 /\
  count is_remove_done (events (upload_file self src n w)) = O /\
  Z.of_nat (count is_backoff (events (upload_file self src n w))) = n /\
  fs (after (upload_file self src n w)) = fs w /\
  fs (after (upload_file self src n w)) !! dst = None /\
  (verbose self = true ->
   last (events (upload_file self src n w)) = Some (EPrint GIVE_UP_MSG)).
Proof.
  intros Hn Hc Hd Hp. unfold upload_file.
  destruct (upload_main_absent dst (Z.to_nat n) Hc Hd w Hp) as (Hf & H1 & H2 & H3 & H4).
  destruct (upload_gives_up self src _ w Hf) as (Hr & Hb & Hl).
  rewrite H4. repeat split; try assumption; lia.
Qed.

End MainFile.

Section MainFileRuns.

Lemma first_main_upload_never_copies_witness :
  0 <= 4 /\
  PyStr.contains (main_file a_session) "/a/main.py" = true /\
  get_drive_path a_session "/a/main.py" = Ok "V:main.py" /\
  fs first_sync_world !! "V:main.py" = None /\
  res (upload_file a_session "/a/main.py" 4 first_sync_world) = Ok tt /\
  count is_copy (events (upload_file a_session "/a/main.py" 4 first_sync_world)) = O /\
  Z.of_nat (count is_remove (events (upload_file a_session "/a/main.py" 4 first_sync_world)))
  = 4 + 1 /\
  count is_remove_done (events (upload_file a_session "/a/main.py" 4 first_sync_world)) = O /\
  Z.of_nat (count is_backoff (events (upload_file a_session "/a/main.py" 4 first_sync_world)))
  = 4 /\
  fs (after (upload_file a_session "/a/main.py" 4 first_sync_world)) = fs first_sync_world /\
  fs (after (upload_file a_session "/a/main.py" 4 first_sync_world)) !! "V:main.py" = None /\
  last (events (upload_file a_session "/a/main.py" 4 first_sync_world))
  = Some (EPrint GIVE_UP_MSG).
Proof.
  assert (H0 : 0 <= 4) by lia.
  assert (Hc : PyStr.contains (main_file a_session) "/a/main.py" = true) by reflexivity.
  assert (Hd : get_drive_path a_session "/a/main.py" = Ok "V:main.py") by reflexivity.
  assert (Hp : fs first_sync_world !! "V:main.py" = None) by reflexivity.
  split; [exact H0|]. split; [exact Hc|]. split; [exact Hd|]. split; [exact Hp|].
  destruct (first_main_upload_never_copies a_session "/a/main.py" "V:main.py" 4
              first_sync_world H0 Hc Hd Hp)
    as (H1 & H2 & H3 & H4 & H5 & H6 & H7 & H8).
  repeat (split; [assumption|]). exact (H8 eq_refl).
Defined.

Lemma sync_action_contains_failure_witness :
  upload_always_fails (Z.to_nat 4) a_session "/a/x.txt" busy_world = true /\
  delete_always_fails 4 a_session "/a/x.txt" busy_world = true /\
  res (upload_file a_session "/a/x.txt" 4 busy_world) = Ok tt /\
  count is_backoff (events (upload_file a_session "/a/x.txt" 4 busy_world)) = Z.to_nat 4 /\
  last (events (upload_file a_session "/a/x.txt" 4 busy_world)) = Some (EPrint GIVE_UP_MSG) /\
  res (delete_file a_session "/a/x.txt" 4 busy_world) = Ok tt /\
  last (events (delete_file a_session "/a/x.txt" 4 busy_world)) = Some (EPrint GIVE_UP_MSG).
Proof.
  assert (Hu : upload_always_fails (Z.to_nat 4) a_session "/a/x.txt" busy_world = true)
    by reflexivity.
  assert (Hd : delete_always_fails 4 a_session "/a/x.txt" busy_world = true)
    by reflexivity.
  destruct (sync_action_contains_failure a_session "/a/x.txt" 4 busy_world)
    as (Hup & Hdel & _ & _).
  destruct (Hup Hu) as (H1 & H2 & H3). destruct (Hdel Hd) as (H4 & H5).
  split; [exact Hu|]. split; [exact Hd|]. split; [exact H1|]. split; [exact H2|].
  split; [exact (H3 eq_refl)|]. split; [exact H4 | exact (H5 eq_refl)].
Defined.

(** C1. The claim is that an upload of the main file tolerates a
    destination that is not there yet and goes on to the copy. On the
    first sync of [main.py] the code removes before it copies, the
    removal raises [FileNotFoundError], which the [except OSError] of
    [upload_file] takes for a failed attempt: all five attempts stop at
    the removal, nothing is copied and the upload gives up. *)
Theorem first_main_upload_fails :
  PyStr.contains (main_file a_session) "/a/main.py" = true /\
  fs first_sync_world !! "/a/main.py" = Some "print(1)" /\
  fs first_sync_world !! "V:main.py" = None /\
  events (upload_file a_session "/a/main.py" 4 first_sync_world)
  = [ EPrint "Removing main.py"; ERemove "V:main.py" (Failed FileNotFoundError);
      EPrint RETRY_MSG; ESleep 1000;
      EPrint "Removing main.py"; ERemove "V:main.py" (Failed FileNotFoundError);
      EPrint RETRY_MSG; ESleep 1000;
      EPrint "Removing main.py"; ERemove "V:main.py" (Failed FileNotFoundError);
      EPrint RETRY_MSG; ESleep 1000;
      EPrint "Removing main.py"; ERemove "V:main.py" (Failed FileNotFoundError);
      EPrint RETRY_MSG; ESleep 1000;
      EPrint "Removing main.py"; ERemove "V:main.py" (Failed FileNotFoundError);
      EPrint GIVE_UP_MSG ] /\
  count is_copy (events (upload_file a_session "/a/main.py" 4 first_sync_world)) = O /\
  fs (after (upload_file a_session "/a/main.py" 4 first_sync_world)) !! "V:main.py" = None.
Proof. repeat split; reflexivity. Qed.

(** A file other than the main file is uploaded to a destination that
    is not there yet. *)
Example first_upload_of_other_file :
  events (upload_file a_session "/a/x.txt" 4 (mkWorld {[ "/a/x.txt" := "hello" ]} []))
  = [ECopyfile "/a/x.txt" "V:x.txt" Done] /\
  fs (after (upload_file a_session "/a/x.txt" 4 (mkWorld {[ "/a/x.txt" := "hello" ]} [])))
    !! "V:x.txt" = Some "hello".
Proof. split; reflexivity. Qed.

End MainFileRuns.

(** ** Deletes *)

Section Delete.

Lemma os_only_bind {A B : Type} (m : M A) (k : A -> M B) :
  raises_os_only m -> (forall a, raises_os_only (k a)) -> raises_os_only (bind m k).
Proof.
  intros Hm Hk w. unfold bind. specialize (Hm w).
  destruct (m w) as [[[a|e] w1] t1]; unfold res in *; simpl in *; [|exact Hm].
  specialize (Hk a w1). destruct (k a w1) as [[r w2] t2]. exact Hk.
Qed.

Lemma os_only_ret {A : Type} (a : A) : raises_os_only (ret a).
Proof. intros w. exact I. Qed.

Lemma os_only_raise {A : Type} (e : os_error) : raises_os_only (@raise A (OSError e)).
Proof. intros w. exact I. Qed.

Lemma os_only_emit (e : event) : raises_os_only (emit e).
Proof. intros w. exact I. Qed.

Lemma os_only_next_fault : raises_os_only next_fault.
Proof. intros w. unfold next_fault. destruct (faults w); exact I. Qed.

Lemma os_only_get_fs : raises_os_only get_fs.
Proof. intros w. exact I. Qed.

Lemma os_only_set_fs m : raises_os_only (set_fs m).
Proof. intros w. exact I. Qed.

Ltac os_only :=
  repeat first
    [ apply os_only_ret | apply os_only_raise | apply os_only_emit
    | apply os_only_next_fault | apply os_only_get_fs | apply os_only_set_fs
    | apply os_only_bind; [|intro]
    | match goal with
      | |- raises_os_only (match ?x with _ => _ end) => destruct x
      end ].

Lemma os_only_os_remove (p : string) : raises_os_only (os_remove p).
Proof. unfold os_remove. os_only. Qed.

Lemma os_only_shutil_copyfile (s d : string) : raises_os_only (shutil_copyfile s d).
Proof. unfold shutil_copyfile. os_only. Qed.

Lemma os_only_reboot_board (self : PyboardSync) : raises_os_only (reboot_board self).
Proof.
  unfold reboot_board, serial_Serial, serial_write, serial_close, time_sleep,
    print_if_verbose, print.
  os_only.
Qed.

Variable self : PyboardSync.
Variable src : string.

(** Once the path is mapped, an attempt raises nothing but [OSError]. *)
Lemma os_only_upload_body (dst : string) :
  get_drive_path self src = Ok dst -> raises_os_only (upload_body self src).
Proof.
  intros Hd. unfold upload_body. rewrite Hd.
  apply os_only_bind; [intros w; exact I|]. intros d.
  apply os_only_bind.
  { destruct (PyStr.contains (main_file self) src); [|apply os_only_ret].
    apply os_only_bind; [|intros _; apply os_only_os_remove].
    unfold print_if_verbose, print. os_only. }
  intros _. apply os_only_bind; [apply os_only_shutil_copyfile|].
  intros _. destruct (reboot self); [apply os_only_reboot_board | apply os_only_ret].
Qed.

(** With a path that can be mapped, an upload always returns. *)
Lemma upload_file_left_returns (dst : string) (left : nat) :
  get_drive_path self src = Ok dst ->
  forall w, res (upload_file_left left self src w) = Ok tt.
Proof.
  intros Hd. induction left as [|left IH]; intros w;
    rewrite upload_file_left_unfold, try_except_run;
    pose proof (os_only_upload_body dst Hd w) as Hos;
    destruct (res (upload_body self src w)) as [[]|[e| |msg]] eqn:Hb;
    try contradiction; try exact Hb.
  - rewrite print_if_verbose_run. reflexivity.
  - rewrite backoff_run. cbn [res fst]. apply IH.
Qed.

(** The retry of a delete is an upload. *)
Lemma delete_file_retry (retries : Z) (w w1 : world) (e : os_error) (t1 : list event) :
  0 < retries ->
  delete_body self src w = (Raise (OSError e), w1, t1) ->
  events (delete_file self src retries w)
  = (t1 ++ (if verbose self then [EPrint RETRY_MSG] else [])
        ++ ESleep 1000 :: events (upload_file self src (retries - 1) w1))%list.
Proof.
  intros Hr Hb. unfold delete_file. rewrite try_except_run, Hb.
  cbn [res after events fst snd].
  replace (retries >? 0) with true by lia.
  rewrite backoff_run. reflexivity.
Qed.

(** An attempt to delete what is not there stops at the removal. *)
Lemma delete_body_absent (dst : string) (w : world) :
  get_drive_path self src = Ok dst ->
  fs w !! dst = None ->
  exists e,
    delete_body self src w
    = (Raise (OSError e), mkWorld (fs w) (tl (faults w)), [ERemove dst (Failed e)]).
Proof.
  intros Hd Hp. destruct (os_remove_absent dst w Hp) as [e He].
  exists e. unfold delete_body. rewrite Hd, bind_lift_ok.
  unfold bind. rewrite He. reflexivity.
Qed.

Lemma os_remove_absent_error (p : string) (w : world) :
  fs w !! p = None ->
  os_remove p w
  = (Raise (OSError (remove_absent_error w)), mkWorld (fs w) (tl (faults w)),
     [ERemove p (Failed (remove_absent_error w))]).
Proof.
  intros Hp. destruct w as [m l]. simpl in Hp.
  unfold os_remove, next_fault, get_fs, set_fs, emit, raise, bind, remove_absent_error.
  destruct l as [|[e|] l]; simpl; rewrite ?Hp; reflexivity.
Qed.

Lemma delete_body_absent_error (dst : string) (w : world) :
  get_drive_path self src = Ok dst ->
  fs w !! dst = None ->
  delete_body self src w
  = (Raise (OSError (remove_absent_error w)), mkWorld (fs w) (tl (faults w)),
     [ERemove dst (Failed (remove_absent_error w))]).
Proof.
  intros Hd Hp. unfold delete_body. rewrite Hd, bind_lift_ok.
  unfold bind. rewrite (os_remove_absent_error dst w Hp). reflexivity.
Qed.

Lemma shutil_copyfile_absent (dst : string) (w : world) :
  fs w !! src = None ->
  exists e,
    shutil_copyfile src dst w
    = (Raise (OSError e), mkWorld (fs w) (tl (faults w)), [ECopyfile src dst (Failed e)]).
Proof.
  intros Hs. destruct w as [m l]. simpl in Hs.
  unfold shutil_copyfile, next_fault, get_fs, set_fs, emit, raise, bind.
  destruct l as [|[e|] l]; simpl; rewrite ?Hs; eexists; reflexivity.
Qed.

(** With neither the source nor the destination there, an attempt to
    upload raises before it changes anything or calls the serial
    transport. *)
Lemma upload_body_nothing_there (dst : string) (w : world) :
  get_drive_path self src = Ok dst ->
  fs w !! src = None ->
  fs w !! dst = None ->
  exists e t,
    upload_body self src w = (Raise (OSError e), mkWorld (fs w) (tl (faults w)), t) /\
    count is_serial t = O.
Proof.
  intros Hd Hs Hp. destruct (PyStr.contains (main_file self) src) eqn:Hc.
  - destruct (upload_body_main_absent self src dst w Hc Hd Hp) as [e He].
    eexists _, _. split; [exact He|]. destruct (verbose self); reflexivity.
  - destruct (shutil_copyfile_absent dst w Hs) as [e He].
    exists e, [ECopyfile src dst (Failed e)]. split; [|reflexivity].
    unfold upload_body. rewrite Hd, Hc, bind_lift_ok.
    rewrite bind_run. cbn [ret res after events fst snd].
    rewrite bind_run, He. reflexivity.
Qed.

Lemma upload_nothing_there (dst : string) (left : nat) :
  get_drive_path self src = Ok dst ->
  forall w,
    fs w !! src = None ->
    fs w !! dst = None ->
    upload_always_fails left self src w = true /\
    count is_serial (events (upload_file_left left self src w)) = O /\
    fs (after (upload_file_left left self src w)) = fs w.
Proof.
  intros Hd. induction left as [|left IH]; intros w Hs Hp;
    destruct (upload_body_nothing_there dst w Hd Hs Hp) as (e & t & He & Ht);
    cbn [upload_always_fails]; rewrite upload_file_left_unfold, try_except_run, He;
    cbn [res after events fst snd].
  - split; [reflexivity|]. rewrite print_if_verbose_run. cbn [res after events fst snd fs].
    rewrite count_app, Ht. destruct (verbose self); split; reflexivity.
  - rewrite backoff_after, backoff_run. cbn [res after events fst snd fs].
    destruct (IH (mkWorld (fs w) (tl (faults w))) Hs Hp) as (Hf & H1 & H2).
    split; [exact Hf|]. rewrite !count_app, !count_cons, H1, H2, Ht.
    destruct (verbose self); split; reflexivity.
Qed.

Lemma count_signal_le_serial (t : list event) :
  (count is_reboot_signal t <= count is_serial t)%nat.
Proof.
  unfold count. induction t as [|[ | | | | | | ] t IH]; simpl; lia.
Qed.

(** C2, as the code has it. A delete whose destination does not exist
    returns without an exception, but the missing file is not taken for
    a success. The removal raises an [OSError], [FileNotFoundError]
    unless the environment fails the call first; the attempt ends there
    as a failed one, with no call on the serial transport and the file
    system unchanged, and the failure goes to the retry branch of the
    delete. With no retry left the delete prints the give-up notice and
    that is all. With retries left it prints the retry notice, waits a
    second and makes its retry call with one retry less, and the rest
    of the delete is the run of that call. When the source is not there
    either, as after a delete on the host, a delete with [n >= 0]
    retries backs off [n] times, gives up, leaves the file system as it
    was and sends no reboot signal, even with reboot enabled. *)
Theorem delete_absent_is_a_failed_attempt (dst : string) (retries : Z) (w : world) :
  get_drive_path self src = Ok dst ->
  fs w !! dst = None ->
  res (delete_file self src retries w) = Ok tt /\
  delete_body self src w
  = (Raise (OSError (remove_absent_error w)), mkWorld (fs w) (tl (faults w)),
     [ERemove dst (Failed (remove_absent_error w))]) /\
  (calm 1 (faults w) = true -> remove_absent_error w = FileNotFoundError) /\
  count is_serial (events (delete_body self src w)) = O /\
  (retries <= 0 ->
   delete_file self src retries w
   = (Ok tt, mkWorld (fs w) (tl (faults w)),
      (ERemove dst (Failed (remove_absent_error w))
       :: (if verbose self then [EPrint GIVE_UP_MSG] else []))%list)) /\
  (0 < retries ->
   delete_file self src retries w
   = (res (upload_file self src (retries - 1) (mkWorld (fs w) (tl (faults w)))),
      after (upload_file self src (retries - 1) (mkWorld (fs w) (tl (faults w)))),
      (ERemove dst (Failed (remove_absent_error w))
       :: (if verbose self then [EPrint RETRY_MSG] else [])
       ++ ESleep 1000
       :: events (upload_file self src (retries - 1)
                    (mkWorld (fs w) (tl (faults w)))))%list)) /\
  (0 <= retries ->
   fs w !! src = None ->
   fs (after (delete_file self src retries w)) = fs w /\
   count is_serial (events (delete_file self src retries w)) = O /\
   count is_reboot_signal (events (delete_file self src retries w)) = O /\
   count is_backoff (events (delete_file self src retries w)) = Z.to_nat retries /\
   (verbose self = true ->
    last (events (delete_file self src retries w)) = Some (EPrint GIVE_UP_MSG))).
Proof.
  intros Hd Hp. pose proof (delete_body_absent_error dst w Hd Hp) as He.
  assert (Hlow : retries <= 0 ->
            delete_file self src retries w
            = (Ok tt, mkWorld (fs w) (tl (faults w)),
               (ERemove dst (Failed (remove_absent_error w))
                :: (if verbose self then [EPrint GIVE_UP_MSG] else []))%list)).
  { intros Hr. unfold delete_file. rewrite try_except_run, He.
    cbn [res after events fst snd].
    replace (retries >? 0) with false by lia.
    rewrite print_if_verbose_run. reflexivity. }
  assert (Hhigh : 0 < retries ->
            delete_file self src retries w
            = (res (upload_file self src (retries - 1) (mkWorld (fs w) (tl (faults w)))),
               after (upload_file self src (retries - 1) (mkWorld (fs w) (tl (faults w)))),
               (ERemove dst (Failed (remove_absent_error w))
                :: (if verbose self then [EPrint RETRY_MSG] else [])
                ++ ESleep 1000
                :: events (upload_file self src (retries - 1)
                             (mkWorld (fs w) (tl (faults w)))))%list)).
  { intros Hr. unfold delete_file. rewrite try_except_run, He.
    cbn [res after events fst snd].
    replace (retries >? 0) with true by lia.
    rewrite backoff_run. reflexivity. }
  split; [|split; [|split; [|split; [|split; [|split]]]]].
  - unfold delete_file. rewrite try_except_run, He. cbn [res after events fst snd].
    destruct (retries >? 0).
    + rewrite backoff_run. cbn [res fst]. apply (upload_file_left_returns dst), Hd.
    + rewrite print_if_verbose_run. reflexivity.
  - exact He.
  - unfold remove_absent_error. destruct (faults w) as [|[e|] l]; simpl;
      [reflexivity | discriminate | reflexivity].
  - rewrite He. reflexivity.
  - exact Hlow.
  - exact Hhigh.
  - intros Hr Hs. destruct (Z.leb_spec retries 0) as [Hz|Hpos].
    + rewrite (Hlow Hz). cbn [res after events fst snd fs].
      replace (Z.to_nat retries) with O by lia.
      destruct (verbose self); repeat split; intros; discriminate.
    + rewrite (Hhigh Hpos). cbn [res after events fst snd].
      unfold upload_file.
      destruct (upload_nothing_there dst (Z.to_nat (retries - 1)) Hd
                  (mkWorld (fs w) (tl (faults w))) Hs Hp) as (Hf & Hser & Hfs).
      destruct (upload_gives_up self src _ _ Hf) as (_ & Hb & Hl).
      pose proof (count_signal_le_serial
                    (events (upload_file_left (Z.to_nat (retries - 1)) self src
                               (mkWorld (fs w) (tl (faults w)))))) as Hle.
      rewrite Hfs. cbn [fs].
      rewrite !count_cons, !count_app, !count_cons, Hser, Hb,
        !count_backoff_notice by reflexivity.
      cbn [is_serial is_reboot_signal is_backoff Z.eqb Pos.eqb].
      repeat split; try lia.
      intros Hv. specialize (Hl Hv).
      change (ERemove dst (Failed (remove_absent_error w)) :: ?t)
        with ([ERemove dst (Failed (remove_absent_error w))] ++ t)%list.
      rewrite last_app, last_app, last_cons, Hl. reflexivity.
Qed.

End Delete.

Section DeleteRuns.

Lemma delete_absent_is_a_failed_attempt_witness :
  get_drive_path com4_session "/a/x.txt" = Ok "V:x.txt" /\
  fs empty_world !! "V:x.txt" = None /\
  fs empty_world !! "/a/x.txt" = None /\
  calm 1 (faults empty_world) = true /\
  res (delete_file com4_session "/a/x.txt" 4 empty_world) = Ok tt /\
  delete_body com4_session "/a/x.txt" empty_world
  = (Raise (OSError FileNotFoundError), empty_world,
     [ERemove "V:x.txt" (Failed FileNotFoundError)]) /\
  count is_serial (events (delete_body com4_session "/a/x.txt" empty_world)) = O /\
  delete_file com4_session "/a/x.txt" 0 empty_world
  = (Ok tt, empty_world,
     [ERemove "V:x.txt" (Failed FileNotFoundError); EPrint GIVE_UP_MSG]) /\
  delete_file com4_session "/a/x.txt" 4 empty_world
  = (res (upload_file com4_session "/a/x.txt" (4 - 1) empty_world),
     after (upload_file com4_session "/a/x.txt" (4 - 1) empty_world),
     ERemove "V:x.txt" (Failed FileNotFoundError) :: EPrint RETRY_MSG :: ESleep 1000
     :: events (upload_file com4_session "/a/x.txt" (4 - 1) empty_world)) /\
  fs (after (delete_file com4_session "/a/x.txt" 4 empty_world)) = fs empty_world /\
  count is_serial (events (delete_file com4_session "/a/x.txt" 4 empty_world)) = O /\
  count is_reboot_signal (events (delete_file com4_session "/a/x.txt" 4 empty_world)) = O /\
  count is_backoff (events (delete_file com4_session "/a/x.txt" 4 empty_world))
  = Z.to_nat 4 /\
  last (events (delete_file com4_session "/a/x.txt" 4 empty_world))
  = Some (EPrint GIVE_UP_MSG).
Proof.
  assert (Hd : get_drive_path com4_session "/a/x.txt" = Ok "V:x.txt") by reflexivity.
  assert (Hp : fs empty_world !! "V:x.txt" = None) by reflexivity.
  assert (Hs : fs empty_world !! "/a/x.txt" = None) by reflexivity.
  assert (Hc : calm 1 (faults empty_world) = true) by reflexivity.
  assert (H00 : 0 <= 0) by lia.
  assert (H04 : 0 < 4) by lia.
  assert (H4 : 0 <= 4) by lia.
  destruct (delete_absent_is_a_failed_attempt com4_session "/a/x.txt" "V:x.txt" 4
              empty_world Hd Hp) as (R4 & B4 & E4 & S4 & _ & High & Gone).
  destruct (delete_absent_is_a_failed_attempt com4_session "/a/x.txt" "V:x.txt" 0
              empty_world Hd Hp) as (_ & _ & _ & _ & Low & _ & _).
  destruct (Gone H4 Hs) as (G1 & G2 & G3 & G4 & G5).
  split; [exact Hd|]. split; [exact Hp|]. split; [exact Hs|]. split; [exact Hc|].
  split; [exact R4|]. split; [exact B4|]. split; [exact S4|].
  split; [exact (Low H00)|]. split; [exact (High H04)|].
  split; [exact G1|]. split; [exact G2|]. split; [exact G3|]. split; [exact G4|].
  exact (G5 eq_refl).
Defined.

(** C2 as stated fails. Reboot is enabled, neither the source nor the
    destination exists (the file was deleted on the host before it was
    ever synced), and [on_deleted] calls [delete_file] with 4 retries:
    the call returns, but it is no silent no-op (it reports a failure
    and backs off four times) and it sends no reboot signal. *)
Lemma delete_absent_sends_no_reboot :
  reboot com4_session = true /\
  fs empty_world !! "V:x.txt" = None /\
  res (delete_file com4_session "/a/x.txt" 4 empty_world) = Ok tt /\
  count is_reboot_signal (events (delete_file com4_session "/a/x.txt" 4 empty_world)) <> 1%nat /\
  count is_reboot_signal (events (delete_file com4_session "/a/x.txt" 4 empty_world)) = O /\
  count is_backoff (events (delete_file com4_session "/a/x.txt" 4 empty_world)) = 4%nat /\
  last (events (delete_file com4_session "/a/x.txt" 4 empty_world))
  = Some (EPrint GIVE_UP_MSG) /\
  count is_reboot_signal (events (delete_file com4_session "/a/x.txt" 0 empty_world)) = O.
Proof. repeat split; try reflexivity. vm_compute. discriminate. Qed.

(** C3. The claim is that a delete that fails with retries left is
    retried as a delete. The retry of [delete_file] calls
    [upload_file]. The removal of [V:x.txt] is refused once (the volume
    is busy) with the budget of 4: the code removes nothing afterwards.
    With the source gone it tries four copies that cannot succeed and
    gives up; with the source present it copies it over the file that
    was to be deleted. Either way the destination is still there at the
    end, and [os.remove] was called once. *)
Theorem delete_retry_uploads :
  events (delete_file a_session "/a/x.txt" 4 volume_only_world)
  = [ ERemove "V:x.txt" (Failed PermissionError);
      EPrint RETRY_MSG; ESleep 1000;
      ECopyfile "/a/x.txt" "V:x.txt" (Failed FileNotFoundError);
      EPrint RETRY_MSG; ESleep 1000;
      ECopyfile "/a/x.txt" "V:x.txt" (Failed FileNotFoundError);
      EPrint RETRY_MSG; ESleep 1000;
      ECopyfile "/a/x.txt" "V:x.txt" (Failed FileNotFoundError);
      EPrint RETRY_MSG; ESleep 1000;
      ECopyfile "/a/x.txt" "V:x.txt" (Failed FileNotFoundError);
      EPrint GIVE_UP_MSG ] /\
  count is_remove (events (delete_file a_session "/a/x.txt" 4 volume_only_world)) = 1%nat /\
  fs (after (delete_file a_session "/a/x.txt" 4 volume_only_world)) !! "V:x.txt"
  = Some "old" /\
  events (delete_file a_session "/a/x.txt" 4 both_world)
  = [ ERemove "V:x.txt" (Failed PermissionError);
      EPrint RETRY_MSG; ESleep 1000;
      ECopyfile "/a/x.txt" "V:x.txt" Done ] /\
  count is_remove (events (delete_file a_session "/a/x.txt" 4 both_world)) = 1%nat /\
  fs (after (delete_file a_session "/a/x.txt" 4 both_world)) !! "V:x.txt" = Some "new".
Proof. repeat split; reflexivity. Qed.

(** Without a fault the delete removes the file. *)
Example delete_file_removes :
  events (delete_file a_session "/a/x.txt" 4 (mkWorld {[ "V:x.txt" := "old" ]} []))
  = [ERemove "V:x.txt" Done] /\
  fs (after (delete_file a_session "/a/x.txt" 4 (mkWorld {[ "V:x.txt" := "old" ]} [])))
    !! "V:x.txt" = None.
Proof. split; reflexivity. Qed.

End DeleteRuns.

(** ** The constructor *)

Section Construction.

(** C8. The constructor raises exactly when reboot is enabled and the
    port is empty ([None] or the empty string). It raises before it
    does anything else: no event, the world untouched, and no session
    object for the callbacks to run on. Otherwise it returns the session
    with the attributes of [args]. *)
Theorem init_raises_iff (args : Args) (w : world) :
  ((exists e, res (__init__ args w) = Raise e) <->
   args_reboot args = true /\ truthy (args_port args) = false) /\
  (args_reboot args = true /\ truthy (args_port args) = false ->
   __init__ args w = (Raise (Exception PORT_MSG), w, [])) /\
  (args_reboot args = false \/ truthy (args_port args) = true ->
   __init__ args w
   = (Ok (mkPyboardSync (args_path args) (args_drive args) (args_verbose args)
            (args_reboot args) (args_port args) (args_main args)),
      w, if args_verbose args then [EPrint "Watching files"] else [])).
Proof.
  unfold __init__, print_if_verbose, print, emit, ret, raise, bind, res.
  cbn [reboot port verbose].
  destruct (args_reboot args), (truthy (args_port args)), (args_verbose args);
    cbn [andb negb fst]; (split; [split|split]).
  all: try (intros [e He]; discriminate He).
  all: try (intros [H1 H2]; discriminate).
  all: try (intros [H|H]; discriminate H).
  all: try (intros _; first [reflexivity | split; reflexivity | eexists; reflexivity]).
Qed.

Lemma init_raises_iff_witness :
  ((exists e, res (__init__ args_no_port empty_world) = Raise e) <->
   args_reboot args_no_port = true /\ truthy (args_port args_no_port) = false) /\
  __init__ args_no_port empty_world = (Raise (Exception PORT_MSG), empty_world, []) /\
  __init__ args_empty_port empty_world = (Raise (Exception PORT_MSG), empty_world, []) /\
  __init__ args_com4 empty_world = (Ok com4_session, empty_world, [EPrint "Watching files"]) /\
  __init__ args_no_reboot empty_world = (Ok a_session, empty_world, [EPrint "Watching files"]).
Proof.
  split; [apply (proj1 (init_raises_iff args_no_port empty_world))|].
  split; [apply (proj1 (proj2 (init_raises_iff args_no_port empty_world)));
          split; reflexivity|].
  split; [apply (proj1 (proj2 (init_raises_iff args_empty_port empty_world)));
          split; reflexivity|].
  split.
  - apply (proj2 (proj2 (init_raises_iff args_com4 empty_world))). right. reflexivity.
  - apply (proj2 (proj2 (init_raises_iff args_no_reboot empty_world))). left. reflexivity.
Defined.

End Construction.

(** ** More on the path mapper *)

Section PathMapperMore.

Lemma interleave_empty (s : string) : PyStr.interleave "" s = s.
Proof. induction s as [|c s IH]; simpl; [reflexivity|]. rewrite IH. reflexivity. Qed.

Lemma contains_empty (s : string) : PyStr.contains "" s = true.
Proof. destruct s; reflexivity. Qed.

(** Replacing a string that does not occur changes nothing. *)
Lemma replace_absent (old new s : string) :
  PyStr.contains old s = false -> PyStr.replace old new s = s.
Proof.
  destruct old as [|a old]; [rewrite contains_empty; discriminate|].
  unfold PyStr.replace. induction s as [|c s IH]; intros Hc; [reflexivity|].
  cbn [PyStr.contains] in Hc. apply orb_false_iff in Hc. destruct Hc as [Hp Hc].
  cbn [PyStr.replace_scan]. rewrite Hp, (IH Hc). reflexivity.
Qed.

(** X1. When there is nothing to remove from the source path (the root
    is the empty string, or it does not occur in the path, as for a path
    outside the watched directory), the mapper does not reject the path:
    it returns the volume, a colon and the whole path less one leading
    separator. *)
Theorem get_drive_path_nothing_to_remove (self : PyboardSync) (p : string) :
  path self = "" \/ PyStr.contains (path self) p = false ->
  p <> "" ->
  get_drive_path self p
  = Ok (String.append (drive self) (String.append ":" (strip_sep p))).
Proof.
  intros Hr Hp. unfold get_drive_path.
  assert (Hrep : PyStr.replace (path self) "" p = p).
  { destruct Hr as [-> | Hc]; [apply interleave_empty | apply replace_absent, Hc]. }
  rewrite Hrep. destruct p as [|c rest]; [congruence|].
  unfold strip_sep. destruct (is_sep c); reflexivity.
Qed.

Lemma get_drive_path_nothing_to_remove_witness :
  PyStr.contains (path a_session) "/b/x.txt" = false /\
  get_drive_path a_session "/b/x.txt" = Ok "V:b/x.txt" /\
  get_drive_path (mkPyboardSync "" "V" true false None "main.py") "x.txt" = Ok "V:x.txt".
Proof.
  split; [reflexivity|]. split.
  - apply (get_drive_path_nothing_to_remove a_session "/b/x.txt");
      [right; reflexivity | discriminate].
  - apply (get_drive_path_nothing_to_remove
             (mkPyboardSync "" "V" true false None "main.py") "x.txt");
      [left; reflexivity | discriminate].
Defined.

(** X2. For a path made of the root and a remainder in which the root
    does not occur again, the mapper returns the volume, a colon and
    the remainder less one leading separator; a second separator and
    everything after it are kept. *)
Theorem get_drive_path_root_once (self : PyboardSync) (s : string) :
  PyStr.contains (path self) s = false ->
  s <> "" ->
  get_drive_path self (String.append (path self) s)
  = Ok (String.append (drive self) (String.append ":" (strip_sep s))).
Proof.
  intros Hc Hs.
  assert (Hr : path self <> "").
  { intros E. rewrite E, contains_empty in Hc. discriminate. }
  rewrite get_drive_path_under_root by exact Hr.
  rewrite (replace_absent _ _ _ Hc).
  destruct s as [|c rest]; [congruence|].
  unfold strip_sep. destruct (is_sep c); reflexivity.
Qed.

Lemma get_drive_path_root_once_witness :
  PyStr.contains (path a_session) "//b\c.py" = false /\
  get_drive_path a_session (String.append (path a_session) "//b\c.py") = Ok "V:/b\c.py".
Proof.
  split; [reflexivity|].
  apply (get_drive_path_root_once a_session "//b\c.py"); [reflexivity | discriminate].
Defined.

End PathMapperMore.

(** ** What a session never does *)

Ltac hush :=
  repeat first
    [ apply quiet_ret | apply quiet_raise | apply quiet_lift
    | apply quiet_next_fault | apply quiet_get_fs | apply quiet_set_fs
    | apply quiet_emit; solve [auto]
    | apply quiet_bind; [|intro]
    | match goal with
      | |- emits_at_most _ _ (match ?x with _ => _ end) => destruct x
      end ].

Section Never.

Variable f : event -> bool.
Variable self : PyboardSync.

Hypothesis f_print : forall s, emits_at_most f 0 (print_if_verbose self s).
Hypothesis f_remove : forall p o, f (ERemove p o) = false.
Hypothesis f_copy : forall s d o, f (ECopyfile s d o) = false.
Hypothesis f_sleep : forall ms, f (ESleep ms) = false.
Hypothesis f_reboot : reboot self = true -> emits_at_most f 0 (reboot_board self).

Lemma quiet_try_except (body handler : M unit) :
  emits_at_most f 0 body -> emits_at_most f 0 handler ->
  emits_at_most f 0 (try_except_OSError body handler).
Proof.
  intros Hb Hh w. rewrite try_except_run. specialize (Hb w).
  destruct (res (body w)) as [[]|[e| |msg]]; try exact Hb.
  cbn [events snd]. rewrite count_app. specialize (Hh (after (body w))). lia.
Qed.

Lemma quiet_os_remove (p : string) : emits_at_most f 0 (os_remove p).
Proof. unfold os_remove. hush. Qed.

Lemma quiet_shutil_copyfile (s d : string) : emits_at_most f 0 (shutil_copyfile s d).
Proof. unfold shutil_copyfile. hush. Qed.

Lemma quiet_reboot_if_enabled :
  emits_at_most f 0 (if reboot self then reboot_board self else ret tt).
Proof.
  destruct (reboot self) eqn:Hr; [apply f_reboot; reflexivity | apply quiet_ret].
Qed.

Lemma quiet_upload_body (src : string) : emits_at_most f 0 (upload_body self src).
Proof.
  unfold upload_body. apply quiet_bind; [apply quiet_lift|]. intros dst.
  apply quiet_bind.
  { destruct (PyStr.contains (main_file self) src); [|apply quiet_ret].
    apply quiet_bind; [apply f_print | intros _; apply quiet_os_remove]. }
  intros _. apply quiet_bind; [apply quiet_shutil_copyfile|].
  intros _. apply quiet_reboot_if_enabled.
Qed.

Lemma quiet_delete_body (src : string) : emits_at_most f 0 (delete_body self src).
Proof.
  unfold delete_body. apply quiet_bind; [apply quiet_lift|]. intros dst.
  apply quiet_bind; [apply quiet_os_remove|].
  intros _. apply quiet_reboot_if_enabled.
Qed.

Lemma quiet_upload_file_left (src : string) (left : nat) :
  emits_at_most f 0 (upload_file_left left self src).
Proof.
  induction left as [|left IH]; rewrite upload_file_left_unfold;
    (apply quiet_try_except; [apply quiet_upload_body|]).
  - apply f_print.
  - apply quiet_bind; [apply f_print|]. intros _.
    apply quiet_bind; [apply quiet_emit, f_sleep | intros _; exact IH].
Qed.

Lemma quiet_upload_file (src : string) (retries : Z) :
  emits_at_most f 0 (upload_file self src retries).
Proof. apply quiet_upload_file_left. Qed.

Lemma quiet_delete_file (src : string) (retries : Z) :
  emits_at_most f 0 (delete_file self src retries).
Proof.
  unfold delete_file. apply quiet_try_except; [apply quiet_delete_body|].
  destruct (retries >? 0); [|apply f_print].
  apply quiet_bind; [apply f_print|]. intros _.
  apply quiet_bind; [apply quiet_emit, f_sleep | intros _; apply quiet_upload_file].
Qed.

Lemma quiet_on_modified (p : string) : emits_at_most f 0 (on_modified self p).
Proof.
  unfold on_modified. apply quiet_bind; [apply quiet_lift|]. intros d.
  apply quiet_bind; [apply f_print | intros _; apply quiet_upload_file].
Qed.

Lemma quiet_on_created (p : string) : emits_at_most f 0 (on_created self p).
Proof.
  unfold on_created. apply quiet_bind; [apply quiet_lift|]. intros d.
  apply quiet_bind; [apply f_print | intros _; apply quiet_upload_file].
Qed.

Lemma quiet_on_deleted (p : string) : emits_at_most f 0 (on_deleted self p).
Proof.
  unfold on_deleted. apply quiet_bind; [apply quiet_lift|]. intros d.
  apply quiet_bind; [apply f_print | intros _; apply quiet_delete_file].
Qed.

End Never.

Section NeverInstances.

Variable self : PyboardSync.

Lemma print_if_verbose_off (f : event -> bool) (s : string) :
  verbose self = false -> emits_at_most f 0 (print_if_verbose self s).
Proof. intros Hv. unfold print_if_verbose. rewrite Hv. apply quiet_ret. Qed.

(** [reboot_board] emits nothing [f] selects when [f] selects none of
    its calls. *)
Lemma quiet_reboot_board (f : event -> bool) :
  (forall s, emits_at_most f 0 (print_if_verbose self s)) ->
  (forall o, f (ESerial (port self) 115200 1 o) = false) ->
  (forall d o, f (ESerialWrite d o) = false) ->
  f ESerialClose = false ->
  (forall ms, f (ESleep ms) = false) ->
  emits_at_most f 0 (reboot_board self).
Proof.
  intros Hp Hs Hw Hc Hsl. unfold reboot_board.
  apply quiet_bind.
  { unfold serial_Serial. destruct (port self); hush. }
  intros com. apply quiet_bind; [apply Hp|]. intros _.
  unfold serial_write, serial_close, time_sleep. destruct (is_open com).
  - apply quiet_bind; [hush|]. intros _. apply quiet_bind; [hush|]. intros _.
    apply quiet_bind; [hush|]. intros _. apply quiet_bind; [hush|]. intros _.
    apply quiet_bind; [hush | intros _; apply Hp].
  - apply quiet_bind; [hush|]. intros _. apply quiet_bind; [hush|]. intros _.
    apply quiet_bind; [hush|]. intros _. apply quiet_bind; [hush|]. intros _.
    apply quiet_bind; [hush | intros _; apply Hp].
Qed.

(** X3. With reboot disabled, no method ever calls the serial
    transport, whatever the file system and the faults: not an upload,
    not a delete, not a callback, on any attempt. *)
Theorem no_serial_without_reboot (src : string) (retries : Z) (w : world) :
  reboot self = false ->
  count is_serial (events (upload_file self src retries w)) = O /\
  count is_serial (events (delete_file self src retries w)) = O /\
  count is_serial (events (on_modified self src w)) = O /\
  count is_serial (events (on_created self src w)) = O /\
  count is_serial (events (on_deleted self src w)) = O.
Proof.
  intros Hr.
  assert (Hp : forall s, emits_at_most is_serial 0 (print_if_verbose self s))
    by (intros s; apply quiet_print_if_verbose; reflexivity).
  assert (Hb : reboot self = true -> emits_at_most is_serial 0 (reboot_board self))
    by (rewrite Hr; discriminate).
  pose proof (quiet_upload_file is_serial self Hp ltac:(reflexivity) ltac:(reflexivity)
                ltac:(reflexivity) Hb src retries w).
  pose proof (quiet_delete_file is_serial self Hp ltac:(reflexivity) ltac:(reflexivity)
                ltac:(reflexivity) Hb src retries w).
  pose proof (quiet_on_modified is_serial self Hp ltac:(reflexivity) ltac:(reflexivity)
                ltac:(reflexivity) Hb src w).
  pose proof (quiet_on_created is_serial self Hp ltac:(reflexivity) ltac:(reflexivity)
                ltac:(reflexivity) Hb src w).
  pose proof (quiet_on_deleted is_serial self Hp ltac:(reflexivity) ltac:(reflexivity)
                ltac:(reflexivity) Hb src w).
  lia.
Qed.

(** X4. A session that is not verbose prints nothing: no notice of a
    removal, a retry, a reboot or of giving up, in any method. *)
Theorem silent_when_not_verbose (src : string) (retries : Z) (w : world) :
  verbose self = false ->
  count is_print (events (upload_file self src retries w)) = O /\
  count is_print (events (delete_file self src retries w)) = O /\
  count is_print (events (reboot_board self w)) = O /\
  count is_print (events (on_modified self src w)) = O /\
  count is_print (events (on_created self src w)) = O /\
  count is_print (events (on_deleted self src w)) = O.
Proof.
  intros Hv.
  assert (Hp : forall s, emits_at_most is_print 0 (print_if_verbose self s))
    by (intros s; apply print_if_verbose_off, Hv).
  assert (Hrb : emits_at_most is_print 0 (reboot_board self))
    by (apply quiet_reboot_board; solve [exact Hp | reflexivity]).
  assert (Hb : reboot self = true -> emits_at_most is_print 0 (reboot_board self))
    by (intros _; exact Hrb).
  pose proof (quiet_upload_file is_print self Hp ltac:(reflexivity) ltac:(reflexivity)
                ltac:(reflexivity) Hb src retries w).
  pose proof (quiet_delete_file is_print self Hp ltac:(reflexivity) ltac:(reflexivity)
                ltac:(reflexivity) Hb src retries w).
  pose proof (Hrb w).
  pose proof (quiet_on_modified is_print self Hp ltac:(reflexivity) ltac:(reflexivity)
                ltac:(reflexivity) Hb src w).
  pose proof (quiet_on_created is_print self Hp ltac:(reflexivity) ltac:(reflexivity)
                ltac:(reflexivity) Hb src w).
  pose proof (quiet_on_deleted is_print self Hp ltac:(reflexivity) ltac:(reflexivity)
                ltac:(reflexivity) Hb src w).
  lia.
Qed.

End NeverInstances.

Section NeverRuns.

Lemma no_serial_without_reboot_witness :
  reboot a_session = false /\
  count is_serial (events (upload_file a_session "/a/x.txt" 4 busy_world)) = O /\
  count is_serial (events (delete_file a_session "/a/x.txt" 4 busy_world)) = O /\
  count is_serial (events (on_modified a_session "/a/x.txt" busy_world)) = O /\
  count is_serial (events (on_created a_session "/a/x.txt" busy_world)) = O /\
  count is_serial (events (on_deleted a_session "/a/x.txt" busy_world)) = O.
Proof.
  split; [reflexivity|].
  apply (no_serial_without_reboot a_session "/a/x.txt" 4 busy_world). reflexivity.
Defined.

Lemma silent_when_not_verbose_witness :
  verbose quiet_session = false /\
  count is_print (events (upload_file quiet_session "/a/x.txt" 4 busy_world)) = O /\
  count is_print (events (delete_file quiet_session "/a/x.txt" 4 busy_world)) = O /\
  count is_print (events (reboot_board quiet_session busy_world)) = O /\
  count is_print (events (on_modified quiet_session "/a/x.txt" busy_world)) = O /\
  count is_print (events (on_created quiet_session "/a/x.txt" busy_world)) = O /\
  count is_print (events (on_deleted quiet_session "/a/x.txt" busy_world)) = O.
Proof.
  split; [reflexivity|].
  apply (silent_when_not_verbose quiet_session "/a/x.txt" 4 busy_world). reflexivity.
Defined.

(** X5. A session that the constructor returned never constructs a
    [Serial] object without a port: the check of [__init__] is what
    keeps every later reboot signal, of any upload, delete or callback,
    on the configured port. *)
Theorem constructed_session_opens_its_port (args : Args) (w0 : world)
    (self : PyboardSync) (src : string) (retries : Z) (w : world) :
  res (__init__ args w0) = Ok self ->
  count is_portless_serial (events (upload_file self src retries w)) = O /\
  count is_portless_serial (events (delete_file self src retries w)) = O /\
  count is_portless_serial (events (on_modified self src w)) = O /\
  count is_portless_serial (events (on_created self src w)) = O /\
  count is_portless_serial (events (on_deleted self src w)) = O.
Proof.
  intros Hinit.
  assert (Hport : reboot self = true -> truthy (port self) = true).
  { revert Hinit. unfold __init__. cbn [reboot port verbose].
    destruct (args_reboot args && negb (truthy (args_port args))) eqn:Hck;
      [discriminate|].
    rewrite bind_run, print_if_verbose_run. cbn [res after events fst snd ret].
    intros E. injection E as <-. cbn [reboot port].
    intros Hr. rewrite Hr in Hck. destruct (truthy (args_port args)); [reflexivity|discriminate]. }
  assert (Hp : forall s, emits_at_most is_portless_serial 0 (print_if_verbose self s))
    by (intros s; apply quiet_print_if_verbose; reflexivity).
  assert (Hb : reboot self = true ->
               emits_at_most is_portless_serial 0 (reboot_board self)).
  { intros Hr. apply quiet_reboot_board; try solve [exact Hp | reflexivity].
    intros o. cbn [is_portless_serial]. rewrite (Hport Hr). reflexivity. }
  pose proof (quiet_upload_file is_portless_serial self Hp ltac:(reflexivity)
                ltac:(reflexivity) ltac:(reflexivity) Hb src retries w).
  pose proof (quiet_delete_file is_portless_serial self Hp ltac:(reflexivity)
                ltac:(reflexivity) ltac:(reflexivity) Hb src retries w).
  pose proof (quiet_on_modified is_portless_serial self Hp ltac:(reflexivity)
                ltac:(reflexivity) ltac:(reflexivity) Hb src w).
  pose proof (quiet_on_created is_portless_serial self Hp ltac:(reflexivity)
                ltac:(reflexivity) ltac:(reflexivity) Hb src w).
  pose proof (quiet_on_deleted is_portless_serial self Hp ltac:(reflexivity)
                ltac:(reflexivity) ltac:(reflexivity) Hb src w).
  lia.
Qed.

Lemma constructed_session_opens_its_port_witness :
  res (__init__ args_com4 empty_world) = Ok com4_session /\
  count is_portless_serial (events (upload_file com4_session "/a/x.txt" 4 plain_world)) = O /\
  count is_portless_serial (events (delete_file com4_session "/a/x.txt" 4 plain_world)) = O /\
  count is_portless_serial (events (on_modified com4_session "/a/x.txt" plain_world)) = O /\
  count is_portless_serial (events (on_created com4_session "/a/x.txt" plain_world)) = O /\
  count is_portless_serial (events (on_deleted com4_session "/a/x.txt" plain_world)) = O.
Proof.
  split; [reflexivity|].
  apply (constructed_session_opens_its_port args_com4 empty_world com4_session
           "/a/x.txt" 4 plain_world).
  reflexivity.
Defined.

(** A session put together without the constructor, reboot enabled
    and no port, does construct a [Serial] object without a port. *)
Example unchecked_session_has_no_port :
  count is_portless_serial
    (events (upload_file (mkPyboardSync "/a" "V" true true None "main.py")
               "/a/x.txt" 0 plain_world)) = 1%nat.
Proof. reflexivity. Qed.

End NeverRuns.

(** ** The reboot signaler and its port *)

Section RebootClose.

(** X6. [reboot_board] closes the port exactly when it returns: a call
    that raises, at the construction or at either write, never reaches
    [com.close()], so a port that was opened stays open; and close is
    never called twice. It raises nothing but [OSError] and leaves the
    file system alone. *)
Theorem reboot_board_closes_iff_returns (self : PyboardSync) (w : world) :
  (res (reboot_board self w) = Ok tt <->
   count is_close (events (reboot_board self w)) = 1%nat) /\
  ((exists e, res (reboot_board self w) = Raise (OSError e)) <->
   count is_close (events (reboot_board self w)) = O) /\
  fs (after (reboot_board self w)) = fs w.
Proof.
  destruct w as [m l]. unfold reboot_board, print_if_verbose.
  destruct (port self) as [p|]; destruct (verbose self);
    destruct l as [|[e1|] [|[e2|] [|[e3|] l]]];
    (split; [split; [intros H; try discriminate H; reflexivity
                    | intros H; try discriminate H; reflexivity]
            | split; [split; [intros [e H]; try discriminate H; reflexivity
                             | intros H; try discriminate H; eexists; reflexivity]
                     | reflexivity]]).
Qed.

Lemma reboot_board_closes_iff_returns_witness :
  res (reboot_board com4_session (mkWorld ∅ [None; Some SerialException]))
  = Raise (OSError SerialException) /\
  count is_close (events (reboot_board com4_session (mkWorld ∅ [None; Some SerialException])))
  = O /\
  count is_close (events (reboot_board com4_session empty_world)) = 1%nat.
Proof.
  split; [reflexivity|]. split.
  - apply (proj1 (proj1 (proj2 (reboot_board_closes_iff_returns com4_session
                                  (mkWorld ∅ [None; Some SerialException]))))).
    eexists. reflexivity.
  - apply (proj1 (proj1 (reboot_board_closes_iff_returns com4_session empty_world))).
    reflexivity.
Defined.

End RebootClose.

(** ** What the sync actions do to the file system *)

Section Frame.

Variable I : gmap string string -> Prop.

Lemma keeps_same {A : Type} (m : M A) :
  (forall w, fs (after (m w)) = fs w) -> keeps_fs I m.
Proof. intros H w Hw. rewrite H. exact Hw. Qed.

Lemma keeps_bind {A B : Type} (m : M A) (k : A -> M B) :
  keeps_fs I m -> (forall a, keeps_fs I (k a)) -> keeps_fs I (bind m k).
Proof.
  intros Hm Hk w Hw. rewrite bind_run. specialize (Hm w Hw).
  destruct (res (m w)) as [a|e]; cbn [after fst snd]; [|exact Hm].
  apply (Hk a), Hm.
Qed.

Lemma keeps_try_except (body handler : M unit) :
  keeps_fs I body -> keeps_fs I handler ->
  keeps_fs I (try_except_OSError body handler).
Proof.
  intros Hb Hh w Hw. rewrite try_except_run. specialize (Hb w Hw).
  destruct (res (body w)) as [[]|[e| |msg]]; try exact Hb.
  cbn [after fst snd]. apply Hh, Hb.
Qed.

Lemma keeps_print_if_verbose (self : PyboardSync) (s : string) :
  keeps_fs I (print_if_verbose self s).
Proof. apply keeps_same. intros w. rewrite print_if_verbose_run. reflexivity. Qed.

Lemma keeps_time_sleep (ms : Z) : keeps_fs I (time_sleep ms).
Proof. apply keeps_same. reflexivity. Qed.

Lemma reboot_board_same_fs (self : PyboardSync) (w : world) :
  fs (after (reboot_board self w)) = fs w.
Proof.
  destruct w as [m l]. unfold reboot_board, print_if_verbose.
  destruct (port self) as [p|]; destruct (verbose self);
    destruct l as [|[e1|] [|[e2|] [|[e3|] l]]]; reflexivity.
Qed.

Lemma keeps_reboot_if_enabled (self : PyboardSync) :
  keeps_fs I (if reboot self then reboot_board self else ret tt).
Proof.
  apply keeps_same. intros w.
  destruct (reboot self); [apply reboot_board_same_fs | reflexivity].
Qed.

Lemma keeps_os_remove (p : string) :
  (forall m, I m -> I (delete p m)) -> keeps_fs I (os_remove p).
Proof.
  intros Hdel [m l] Hw. cbn [fs] in Hw.
  unfold os_remove, next_fault, get_fs, set_fs, emit, raise, bind.
  destruct l as [|[e|] l]; cbn; try exact Hw;
    (destruct (m !! p); cbn; [apply Hdel, Hw | exact Hw]).
Qed.

Lemma keeps_shutil_copyfile (src dst : string) :
  (forall m data, I m -> m !! src = Some data -> src <> dst -> I (<[dst := data]> m)) ->
  keeps_fs I (shutil_copyfile src dst).
Proof.
  intros Hins [m l] Hw. cbn [fs] in Hw.
  unfold shutil_copyfile, next_fault, get_fs, set_fs, emit, raise, bind.
  destruct l as [|[e|] l]; cbn; try exact Hw;
    (destruct (m !! src) as [data|] eqn:Hs; cbn; [|exact Hw];
     destruct (String.eqb src dst) eqn:Hne; cbn; [exact Hw|];
     apply (Hins m data Hw Hs), String.eqb_neq, Hne).
Qed.

Variable self : PyboardSync.
Variable src dst : string.

Hypothesis mapped : get_drive_path self src = Ok dst.
Hypothesis I_copy :
  forall m data, I m -> m !! src = Some data -> src <> dst -> I (<[dst := data]> m).

Lemma keeps_upload_body :
  (PyStr.contains (main_file self) src = true -> forall m, I m -> I (delete dst m)) ->
  keeps_fs I (upload_body self src).
Proof.
  intros Hdel w Hw. unfold upload_body. rewrite mapped, bind_lift_ok.
  revert w Hw. apply keeps_bind.
  { destruct (PyStr.contains (main_file self) src); [|apply keeps_same; reflexivity].
    apply keeps_bind; [apply keeps_print_if_verbose|].
    intros _. apply keeps_os_remove, Hdel. reflexivity. }
  intros _. apply keeps_bind; [apply keeps_shutil_copyfile, I_copy|].
  intros _. apply keeps_reboot_if_enabled.
Qed.

Lemma keeps_upload_file_left (left : nat) :
  (PyStr.contains (main_file self) src = true -> forall m, I m -> I (delete dst m)) ->
  keeps_fs I (upload_file_left left self src).
Proof.
  intros Hdel. induction left as [|left IH]; rewrite upload_file_left_unfold;
    (apply keeps_try_except; [apply keeps_upload_body, Hdel|]).
  - apply keeps_print_if_verbose.
  - apply keeps_bind; [apply keeps_print_if_verbose|]. intros _.
    apply keeps_bind; [apply keeps_time_sleep | intros _; exact IH].
Qed.

Lemma keeps_delete_file (retries : Z) :
  (forall m, I m -> I (delete dst m)) ->
  keeps_fs I (delete_file self src retries).
Proof.
  intros Hdel. unfold delete_file. apply keeps_try_except.
  - intros w Hw. unfold delete_body. rewrite mapped, bind_lift_ok.
    revert w Hw. apply keeps_bind; [apply keeps_os_remove, Hdel|].
    intros _. apply keeps_reboot_if_enabled.
  - destruct (retries >? 0); [|apply keeps_print_if_verbose].
    apply keeps_bind; [apply keeps_print_if_verbose|]. intros _.
    apply keeps_bind; [apply keeps_time_sleep|]. intros _.
    apply keeps_upload_file_left. intros _. exact Hdel.
Qed.

End Frame.

Section FileSystem.

Variable self : PyboardSync.
Variable src : string.

Lemma get_drive_path_raises (e : exn) :
  get_drive_path self src = Raise e -> e = IndexError.
Proof.
  unfold get_drive_path. destruct (PyStr.replace (path self) "" src); [|discriminate].
  intros E. injection E as <-. reflexivity.
Qed.

(** When the path cannot be mapped, the [try] blocks raise at once. *)
Lemma upload_body_unmapped (e : exn) (w : world) :
  get_drive_path self src = Raise e -> upload_body self src w = (Raise e, w, []).
Proof. intros H. unfold upload_body. rewrite H. reflexivity. Qed.

Lemma delete_body_unmapped (e : exn) (w : world) :
  get_drive_path self src = Raise e -> delete_body self src w = (Raise e, w, []).
Proof. intros H. unfold delete_body. rewrite H. reflexivity. Qed.

Lemma upload_file_unmapped (e : exn) (retries : Z) (w : world) :
  get_drive_path self src = Raise e ->
  upload_file self src retries w = (Raise e, w, []).
Proof.
  intros H. pose proof (get_drive_path_raises e H) as ->.
  unfold upload_file. rewrite upload_file_left_unfold, try_except_run,
    (upload_body_unmapped _ w H). reflexivity.
Qed.

Lemma delete_file_unmapped (e : exn) (retries : Z) (w : world) :
  get_drive_path self src = Raise e ->
  delete_file self src retries w = (Raise e, w, []).
Proof.
  intros H. pose proof (get_drive_path_raises e H) as ->.
  unfold delete_file. rewrite try_except_run, (delete_body_unmapped _ w H). reflexivity.
Qed.

(** X7. An upload or a delete changes the file system at the
    destination path only: every other path, the source file among
    them unless it is the destination, holds after the call what it
    held before, whatever fails and however often the action retries. *)
Theorem sync_actions_touch_destination_only (retries : Z) (w : world) (k : string) :
  get_drive_path self src <> Ok k ->
  fs (after (upload_file self src retries w)) !! k = fs w !! k /\
  fs (after (delete_file self src retries w)) !! k = fs w !! k.
Proof.
  intros Hk. destruct (get_drive_path self src) as [dst|e] eqn:Hd.
  - assert (Hne : dst <> k) by congruence.
    set (I := fun m : gmap string string => m !! k = fs w !! k).
    assert (Hins : forall m data, I m -> m !! src = Some data -> src <> dst ->
                                  I (<[dst := data]> m)).
    { intros m data Hm _ _. unfold I in *. rewrite lookup_insert_ne by exact Hne. exact Hm. }
    assert (Hdel : forall m, I m -> I (delete dst m)).
    { intros m Hm. unfold I in *. rewrite lookup_delete_ne by exact Hne. exact Hm. }
    split.
    + apply (keeps_upload_file_left I self src dst Hd Hins (Z.to_nat retries)
               (fun _ => Hdel) w). reflexivity.
    + apply (keeps_delete_file I self src dst Hd Hins retries Hdel w). reflexivity.
  - rewrite (upload_file_unmapped e retries w Hd), (delete_file_unmapped e retries w Hd).
    split; reflexivity.
Qed.

End FileSystem.

Section FileSystemRuns.

Lemma sync_actions_touch_destination_only_witness :
  get_drive_path a_session "/a/x.txt" <> Ok "/a/x.txt" /\
  fs (after (upload_file a_session "/a/x.txt" 4 plain_world)) !! "/a/x.txt"
  = fs plain_world !! "/a/x.txt" /\
  fs (after (delete_file a_session "/a/x.txt" 4 plain_world)) !! "/a/x.txt"
  = fs plain_world !! "/a/x.txt".
Proof.
  assert (H : get_drive_path a_session "/a/x.txt" <> Ok "/a/x.txt") by discriminate.
  split; [exact H|].
  apply (sync_actions_touch_destination_only a_session "/a/x.txt" 4 plain_world
           "/a/x.txt" H).
Defined.

End FileSystemRuns.

(** ** Runs in which nothing fails *)

Section GoodRuns.

Variable self : PyboardSync.

Lemma calm_step (n : nat) (l : list (option os_error)) :
  calm (S n) l = true -> calm 1 l = true /\ calm n (tl l) = true.
Proof.
  intros H. destruct (calm_next n l H) as [->|(l' & -> & Hl')].
  - split; [reflexivity | destruct n; reflexivity].
  - split; [reflexivity | exact Hl'].
Qed.

Lemma os_remove_run (p old : string) (m : gmap string string)
    (l : list (option os_error)) :
  m !! p = Some old -> calm 1 l = true ->
  os_remove p (mkWorld m l) = (Ok tt, mkWorld (delete p m) (tl l), [ERemove p Done]).
Proof.
  intros Hp Hl. unfold os_remove, next_fault, get_fs, set_fs, emit, raise, bind.
  destruct l as [|[e|] l]; try discriminate Hl; cbn; rewrite Hp; reflexivity.
Qed.

Lemma shutil_copyfile_run (src dst data : string) (m : gmap string string)
    (l : list (option os_error)) :
  m !! src = Some data -> src <> dst -> calm 1 l = true ->
  shutil_copyfile src dst (mkWorld m l)
  = (Ok tt, mkWorld (<[dst := data]> m) (tl l), [ECopyfile src dst Done]).
Proof.
  intros Hs Hne Hl. apply String.eqb_neq in Hne.
  unfold shutil_copyfile, next_fault, get_fs, set_fs, emit, raise, bind.
  destruct l as [|[e|] l]; try discriminate Hl; cbn; rewrite Hs, Hne; reflexivity.
Qed.

Lemma reboot_if_enabled_run (m : gmap string string) (l : list (option os_error)) :
  calm 3 l = true ->
  (reboot self = true -> exists p, port self = Some p) ->
  (if reboot self then reboot_board self else ret tt) (mkWorld m l)
  = (Ok tt, mkWorld m (if reboot self then skipn 3 l else l), reboot_if_enabled self).
Proof.
  intros Hl Hport. unfold reboot_if_enabled, good_reboot.
  destruct (reboot self); [|reflexivity].
  destruct (Hport eq_refl) as [p Hp].
  rewrite (reboot_board_run self p m l Hp Hl), Hp. reflexivity.
Qed.

Lemma upload_file_left_good_run (src dst data : string) (left : nat) (w : world) :
  PyStr.contains (main_file self) src = false ->
  get_drive_path self src = Ok dst ->
  fs w !! src = Some data ->
  src <> dst ->
  calm 4 (faults w) = true ->
  (reboot self = true -> exists p, port self = Some p) ->
  upload_file_left left self src w
  = (Ok tt,
     mkWorld (<[dst := data]> (fs w))
             (if reboot self then skipn 3 (tl (faults w)) else tl (faults w)),
     ECopyfile src dst Done :: reboot_if_enabled self).
Proof.
  intros Hc Hd Hs Hne Hl Hport. destruct w as [m l]. cbn [fs faults] in *.
  destruct (calm_step 3 l Hl) as [Hl1 Hl3].
  rewrite upload_file_left_unfold, try_except_run.
  assert (Hb : upload_body self src (mkWorld m l)
               = (Ok tt,
                  mkWorld (<[dst := data]> m)
                          (if reboot self then skipn 3 (tl l) else tl l),
                  ECopyfile src dst Done :: reboot_if_enabled self)).
  { unfold upload_body. rewrite Hd, Hc, bind_lift_ok.
    rewrite bind_run. cbn [ret res after events fst snd].
    rewrite bind_run, (shutil_copyfile_run src dst data m l Hs Hne Hl1).
    cbn [res after events fst snd].
    rewrite (reboot_if_enabled_run _ _ Hl3 Hport). reflexivity. }
  rewrite Hb. reflexivity.
Qed.

(** X9. An upload of a file that is not the main file, with the source
    there and nothing failing, is one attempt whatever the budget: one
    copy to the destination, then one reboot signal if reboot is
    enabled and none otherwise, no removal, no notice of a retry, no
    backoff; the destination then holds the contents of the source. *)
Theorem upload_file_succeeds (src dst data : string) (retries : Z) (w : world) :
  PyStr.contains (main_file self) src = false ->
  get_drive_path self src = Ok dst ->
  fs w !! src = Some data ->
  src <> dst ->
  calm 4 (faults w) = true ->
  (reboot self = true -> exists p, port self = Some p) ->
  upload_file self src retries w
  = (Ok tt,
     mkWorld (<[dst := data]> (fs w))
             (if reboot self then skipn 3 (tl (faults w)) else tl (faults w)),
     ECopyfile src dst Done :: reboot_if_enabled self).
Proof.
  intros Hc Hd Hs Hne Hl Hport. unfold upload_file.
  apply upload_file_left_good_run; assumption.
Qed.

(** X10. An upload of the main file onto a destination that exists,
    with nothing failing, is one attempt: the notice of the removal, the
    removal of the destination, the copy, then the reboot signal if
    enabled; the destination then holds the contents of the source. *)
Theorem upload_main_file_overwrites (src dst data old : string) (retries : Z)
    (w : world) :
  PyStr.contains (main_file self) src = true ->
  get_drive_path self src = Ok dst ->
  fs w !! dst = Some old ->
  fs w !! src = Some data ->
  src <> dst ->
  calm 5 (faults w) = true ->
  (reboot self = true -> exists p, port self = Some p) ->
  upload_file self src retries w
  = (Ok tt,
     mkWorld (<[dst := data]> (fs w))
             (if reboot self then skipn 3 (tl (tl (faults w))) else tl (tl (faults w))),
     ((if verbose self
       then [EPrint (String.append "Removing " (main_file self))] else [])
      ++ ERemove dst Done :: ECopyfile src dst Done :: reboot_if_enabled self)%list).
Proof.
  intros Hc Hd Ho Hs Hne Hl Hport. destruct w as [m l]. cbn [fs faults] in *.
  destruct (calm_step 4 l Hl) as [Hl1 Hl4].
  destruct (calm_step 3 (tl l) Hl4) as [Hl2 Hl3].
  unfold upload_file. rewrite upload_file_left_unfold, try_except_run.
  assert (Hb : upload_body self src (mkWorld m l)
               = (Ok tt,
                  mkWorld (<[dst := data]> m)
                          (if reboot self then skipn 3 (tl (tl l)) else tl (tl l)),
                  ((if verbose self
                    then [EPrint (String.append "Removing " (main_file self))] else [])
                   ++ ERemove dst Done :: ECopyfile src dst Done
                   :: reboot_if_enabled self)%list)).
  { unfold upload_body. rewrite Hd, Hc, bind_lift_ok.
    rewrite bind_run, bind_run, print_if_verbose_run. cbn [res after events fst snd].
    rewrite (os_remove_run dst old m l Ho Hl1). cbn [res after events fst snd].
    assert (Hs' : delete dst m !! src = Some data)
      by (rewrite lookup_delete_ne by congruence; exact Hs).
    rewrite bind_run, (shutil_copyfile_run src dst data _ _ Hs' Hne Hl2).
    cbn [res after events fst snd].
    rewrite (reboot_if_enabled_run _ _ Hl3 Hport), insert_delete_eq.
    cbn [res after events fst snd]. rewrite <- app_assoc. reflexivity. }
  rewrite Hb. reflexivity.
Qed.

Lemma delete_file_good_run (src dst old : string) (retries : Z) (w : world) :
  get_drive_path self src = Ok dst ->
  fs w !! dst = Some old ->
  calm 4 (faults w) = true ->
  (reboot self = true -> exists p, port self = Some p) ->
  delete_file self src retries w
  = (Ok tt,
     mkWorld (delete dst (fs w))
             (if reboot self then skipn 3 (tl (faults w)) else tl (faults w)),
     ERemove dst Done :: reboot_if_enabled self).
Proof.
  intros Hd Ho Hl Hport. destruct w as [m l]. cbn [fs faults] in *.
  destruct (calm_step 3 l Hl) as [Hl1 Hl3].
  unfold delete_file. rewrite try_except_run.
  assert (Hb : delete_body self src (mkWorld m l)
               = (Ok tt,
                  mkWorld (delete dst m) (if reboot self then skipn 3 (tl l) else tl l),
                  ERemove dst Done :: reboot_if_enabled self)).
  { unfold delete_body. rewrite Hd, bind_lift_ok.
    rewrite bind_run, (os_remove_run dst old m l Ho Hl1). cbn [res after events fst snd].
    rewrite (reboot_if_enabled_run _ _ Hl3 Hport). reflexivity. }
  rewrite Hb. reflexivity.
Qed.

(** X11. A delete of a destination that exists, with nothing failing,
    is one attempt whatever the budget: the removal, then one reboot
    signal if reboot is enabled; the destination is gone and nothing is
    copied or printed about a retry. *)
Theorem delete_file_succeeds (src dst old : string) (retries : Z) (w : world) :
  get_drive_path self src = Ok dst ->
  fs w !! dst = Some old ->
  calm 4 (faults w) = true ->
  (reboot self = true -> exists p, port self = Some p) ->
  delete_file self src retries w
  = (Ok tt,
     mkWorld (delete dst (fs w))
             (if reboot self then skipn 3 (tl (faults w)) else tl (faults w)),
     ERemove dst Done :: reboot_if_enabled self).
Proof.
  intros Hd Ho Hl Hport. apply (delete_file_good_run src dst old); assumption.
Qed.

(** X12. An upload of the main file onto a destination that exists,
    whose copy is refused once after the removal went through, loses
    the file on the volume: the destination is already removed, every
    retry stops at the removal of what is no longer there, nothing is
    ever copied, and the upload returns with the destination gone. *)
Theorem upload_main_file_lost_on_refused_copy (src dst old : string)
    (e : os_error) (l : list (option os_error)) (retries : Z) (w : world) :
  PyStr.contains (main_file self) src = true ->
  get_drive_path self src = Ok dst ->
  fs w !! dst = Some old ->
  faults w = None :: Some e :: l ->
  res (upload_file self src retries w) = Ok tt /\
  fs (after (upload_file self src retries w)) = delete dst (fs w) /\
  fs (after (upload_file self src retries w)) !! dst = None /\
  count is_copy_done (events (upload_file self src retries w)) = O /\
  count is_remove_done (events (upload_file self src retries w)) = 1%nat.
Proof.
  intros Hc Hd Ho Hf. destruct w as [m fl]. cbn [fs faults] in *. subst fl.
  set (first := ((if verbose self
                  then [EPrint (String.append "Removing " (main_file self))] else [])
                 ++ [ERemove dst Done; ECopyfile src dst (Failed e)])%list).
  assert (Hb : upload_body self src (mkWorld m (None :: Some e :: l))
               = (Raise (OSError e), mkWorld (delete dst m) l, first)).
  { unfold upload_body. rewrite Hd, Hc, bind_lift_ok.
    rewrite bind_run, bind_run, print_if_verbose_run. cbn [res after events fst snd].
    rewrite (os_remove_run dst old m (None :: Some e :: l) Ho eq_refl).
    cbn [res after events fst snd tl].
    rewrite bind_run. unfold shutil_copyfile at 1. rewrite bind_run.
    cbn. rewrite <- app_assoc. reflexivity. }
  assert (Hgone : fs (mkWorld (delete dst m) l) !! dst = None)
    by apply lookup_delete_eq.
  assert (Hrest : forall k,
             res (upload_file_left k self src (mkWorld (delete dst m) l)) = Ok tt /\
             fs (after (upload_file_left k self src (mkWorld (delete dst m) l)))
             = delete dst m /\
             count is_copy_done
               (events (upload_file_left k self src (mkWorld (delete dst m) l))) = O /\
             count is_remove_done
               (events (upload_file_left k self src (mkWorld (delete dst m) l))) = O).
  { intros k.
    destruct (upload_main_absent self src dst k Hc Hd _ Hgone) as (Hf & H1 & _ & H3 & H4).
    destruct (upload_gives_up self src k _ Hf) as (Hr & _ & _).
    pose proof (count_done_le_copy
                  (events (upload_file_left k self src (mkWorld (delete dst m) l)))).
    repeat split; [exact Hr | exact H4 | lia | exact H3]. }
  assert (Hfirst_done : count is_copy_done first = O)
    by (unfold first; destruct (verbose self); reflexivity).
  assert (Hfirst_rm : count is_remove_done first = 1%nat)
    by (unfold first; destruct (verbose self); reflexivity).
  clearbody first.
  unfold upload_file. rewrite upload_file_left_unfold, try_except_run, Hb.
  cbn [res after events fst snd fs].
  destruct (Z.to_nat retries) as [|k].
  - rewrite print_if_verbose_run. cbn [res after events fst snd fs].
    rewrite !count_app, Hfirst_done, Hfirst_rm.
    repeat split; try apply lookup_delete_eq; destruct (verbose self); reflexivity.
  - rewrite backoff_run. cbn [res after events fst snd fs].
    destruct (Hrest k) as (Hr & Hfs & Hcd & Hrd).
    rewrite !count_app, !count_cons, Hfirst_done, Hfirst_rm, Hcd, Hrd, Hfs,
      !count_backoff_notice by reflexivity.
    repeat split; try apply lookup_delete_eq; try exact Hr.
Qed.

End GoodRuns.

Section GoodRunsWitnesses.

Lemma upload_file_succeeds_witness :
  PyStr.contains (main_file com4_session) "/a/x.txt" = false /\
  fs plain_world !! "/a/x.txt" = Some "hello" /\
  upload_file com4_session "/a/x.txt" 4 plain_world
  = (Ok tt, mkWorld (<[ "V:x.txt" := "hello" ]> (fs plain_world)) [],
     ECopyfile "/a/x.txt" "V:x.txt" Done :: reboot_if_enabled com4_session) /\
  upload_file a_session "/a/x.txt" 4 plain_world
  = (Ok tt, mkWorld (<[ "V:x.txt" := "hello" ]> (fs plain_world)) [],
     [ECopyfile "/a/x.txt" "V:x.txt" Done]).
Proof.
  split; [reflexivity|]. split; [reflexivity|]. split.
  - apply (upload_file_succeeds com4_session "/a/x.txt" "V:x.txt" "hello" 4 plain_world);
      try reflexivity; try discriminate. intros _. eexists. reflexivity.
  - apply (upload_file_succeeds a_session "/a/x.txt" "V:x.txt" "hello" 4 plain_world);
      try reflexivity; discriminate.
Defined.

Lemma upload_main_file_overwrites_witness :
  PyStr.contains (main_file a_session) "/a/main.py" = true /\
  fs main_world !! "V:main.py" = Some "print(1)" /\
  upload_file a_session "/a/main.py" 4 main_world
  = (Ok tt, mkWorld (<[ "V:main.py" := "print(2)" ]> (fs main_world)) [],
     [EPrint "Removing main.py"; ERemove "V:main.py" Done;
      ECopyfile "/a/main.py" "V:main.py" Done]).
Proof.
  split; [reflexivity|]. split; [reflexivity|].
  apply (upload_main_file_overwrites a_session "/a/main.py" "V:main.py" "print(2)"
           "print(1)" 4 main_world); try reflexivity; discriminate.
Defined.

Lemma delete_file_succeeds_witness :
  get_drive_path com4_session "/a/x.txt" = Ok "V:x.txt" /\
  fs plain_world !! "V:x.txt" = Some "old" /\
  delete_file com4_session "/a/x.txt" 4 plain_world
  = (Ok tt, mkWorld (delete "V:x.txt" (fs plain_world)) [],
     ERemove "V:x.txt" Done :: reboot_if_enabled com4_session).
Proof.
  split; [reflexivity|]. split; [reflexivity|].
  apply (delete_file_succeeds com4_session "/a/x.txt" "V:x.txt" "old" 4 plain_world);
    try reflexivity. intros _. eexists. reflexivity.
Defined.

Lemma upload_main_file_lost_on_refused_copy_witness :
  PyStr.contains (main_file a_session) "/a/main.py" = true /\
  fs main_refused_world !! "V:main.py" = Some "print(1)" /\
  faults main_refused_world = [None; Some PermissionError] /\
  res (upload_file a_session "/a/main.py" 4 main_refused_world) = Ok tt /\
  fs (after (upload_file a_session "/a/main.py" 4 main_refused_world))
  = delete "V:main.py" (fs main_refused_world) /\
  fs (after (upload_file a_session "/a/main.py" 4 main_refused_world)) !! "V:main.py" = None /\
  count is_copy_done (events (upload_file a_session "/a/main.py" 4 main_refused_world)) = O /\
  count is_remove_done (events (upload_file a_session "/a/main.py" 4 main_refused_world))
  = 1%nat.
Proof.
  split; [reflexivity|]. split; [reflexivity|]. split; [reflexivity|].
  apply (upload_main_file_lost_on_refused_copy a_session "/a/main.py" "V:main.py"
           "print(1)" PermissionError [] 4 main_refused_world); reflexivity.
Defined.

End GoodRunsWitnesses.

(** ** What a caller sees of a sync action *)

Section Returns.

Variable self : PyboardSync.
Variable src : string.

Lemma os_only_delete_body (dst : string) :
  get_drive_path self src = Ok dst -> raises_os_only (delete_body self src).
Proof.
  intros Hd. unfold delete_body. rewrite Hd.
  apply os_only_bind; [intros w; exact I|]. intros d.
  apply os_only_bind; [apply os_only_os_remove|].
  intros _. destruct (reboot self); [apply os_only_reboot_board | apply os_only_ret].
Qed.

Lemma delete_file_returns (dst : string) (retries : Z) (w : world) :
  get_drive_path self src = Ok dst -> res (delete_file self src retries w) = Ok tt.
Proof.
  intros Hd. unfold delete_file. rewrite try_except_run.
  pose proof (os_only_delete_body dst Hd w) as Hos.
  destruct (res (delete_body self src w)) as [[]|[e| |msg]] eqn:Hb;
    try contradiction; try exact Hb.
  destruct (retries >? 0).
  - rewrite backoff_run. cbn [res fst]. apply (upload_file_left_returns self src dst), Hd.
  - rewrite print_if_verbose_run. reflexivity.
Qed.

(** X13. What a sync action returns tells only whether the path could
    be mapped. It returns normally whenever [get_drive_path] returns a
    destination, after a success as after giving up; when
    [get_drive_path] raises, the [IndexError] leaves the action at once:
    it is not an [OSError], so nothing is retried, printed or touched. *)
Theorem sync_actions_return_iff_mapped (retries : Z) (w : world) :
  (res (upload_file self src retries w) = Ok tt <->
   exists dst, get_drive_path self src = Ok dst) /\
  (res (delete_file self src retries w) = Ok tt <->
   exists dst, get_drive_path self src = Ok dst) /\
  ((forall dst, get_drive_path self src <> Ok dst) ->
   upload_file self src retries w = (Raise IndexError, w, []) /\
   delete_file self src retries w = (Raise IndexError, w, [])).
Proof.
  destruct (get_drive_path self src) as [dst|e] eqn:Hd.
  - split; [|split].
    + split; [intros _; eexists; reflexivity|].
      intros _. apply (upload_file_left_returns self src dst), Hd.
    + split; [intros _; eexists; reflexivity|].
      intros _. apply (delete_file_returns dst), Hd.
    + intros H. destruct (H dst eq_refl).
  - pose proof (get_drive_path_raises self src e Hd) as ->.
    rewrite (upload_file_unmapped self src _ retries w Hd),
      (delete_file_unmapped self src _ retries w Hd).
    split; [|split].
    + split; [discriminate | intros [d Hx]; discriminate Hx].
    + split; [discriminate | intros [d Hx]; discriminate Hx].
    + intros _. split; reflexivity.
Qed.

End Returns.

Section ReturnsWitness.

Lemma sync_actions_return_iff_mapped_witness :
  (forall dst, get_drive_path a_session "/a" <> Ok dst) /\
  upload_file a_session "/a" 4 plain_world = (Raise IndexError, plain_world, []) /\
  delete_file a_session "/a" 4 plain_world = (Raise IndexError, plain_world, []) /\
  res (upload_file a_session "/a/x.txt" 4 busy_world) = Ok tt /\
  res (delete_file a_session "/a/x.txt" 4 busy_world) = Ok tt.
Proof.
  assert (H : forall dst, get_drive_path a_session "/a" <> Ok dst) by (intros d; discriminate).
  split; [exact H|].
  destruct (sync_actions_return_iff_mapped a_session "/a" 4 plain_world) as (_ & _ & Hu).
  destruct (Hu H) as [H1 H2]. split; [exact H1|]. split; [exact H2|].
  destruct (sync_actions_return_iff_mapped a_session "/a/x.txt" 4 busy_world)
    as (Hup & Hdel & _).
  split; [apply Hup | apply Hdel]; eexists; reflexivity.
Defined.

End ReturnsWitness.

(** ** The callbacks *)

Section Sleep.

Lemma slept_app (t1 t2 : list event) : slept (t1 ++ t2)%list = slept t1 + slept t2.
Proof.
  induction t1 as [|[ |ms| | | | | ] t1 IH]; cbn [slept app]; rewrite ?IH; lia.
Qed.

Lemma slept_no_sleep (t : list event) : count is_sleep t = O -> slept t = 0.
Proof.
  induction t as [|[ |ms| | | | | ] t IH]; intros H; try reflexivity;
    rewrite count_cons in H; cbn [is_sleep] in H; cbn [slept]; try lia;
    apply IH; lia.
Qed.

Lemma sleeps_none {A : Type} (m : M A) :
  emits_at_most is_sleep 0 m -> sleeps_at_most 0 m.
Proof.
  intros H w. specialize (H w). rewrite slept_no_sleep by lia. lia.
Qed.

Lemma sleeps_bind {A B : Type} (n1 n2 : Z) (m : M A) (k : A -> M B) :
  0 <= n2 ->
  sleeps_at_most n1 m -> (forall a, sleeps_at_most n2 (k a)) ->
  sleeps_at_most (n1 + n2) (bind m k).
Proof.
  intros Hn Hm Hk w. rewrite bind_run. specialize (Hm w).
  destruct (res (m w)) as [a|e]; cbn [events snd]; [|lia].
  rewrite slept_app. specialize (Hk a (after (m w))). lia.
Qed.

Lemma sleeps_try_except (n1 n2 : Z) (body handler : M unit) :
  0 <= n2 ->
  sleeps_at_most n1 body -> sleeps_at_most n2 handler ->
  sleeps_at_most (n1 + n2) (try_except_OSError body handler).
Proof.
  intros Hn Hb Hh w. rewrite try_except_run. specialize (Hb w).
  destruct (res (body w)) as [[]|[e| |msg]]; try lia.
  cbn [events snd]. rewrite slept_app. specialize (Hh (after (body w))). lia.
Qed.

Variable self : PyboardSync.

Lemma sleeps_print_if_verbose (s : string) : sleeps_at_most 0 (print_if_verbose self s).
Proof. apply sleeps_none, quiet_print_if_verbose. reflexivity. Qed.

Lemma sleeps_reboot_if_enabled :
  sleeps_at_most 200 (if reboot self then reboot_board self else ret tt).
Proof.
  destruct (reboot self); [|intros w; cbn; lia].
  intros [m l]. unfold reboot_board, print_if_verbose.
  destruct (port self) as [p|]; destruct (verbose self);
    destruct l as [|[e1|] [|[e2|] [|[e3|] l]]]; cbn; lia.
Qed.

Lemma sleeps_upload_body (src : string) : sleeps_at_most 200 (upload_body self src).
Proof.
  unfold upload_body.
  apply (sleeps_bind 0 200); [lia | apply sleeps_none, quiet_lift|]. intros dst.
  apply (sleeps_bind 0 200); [lia | |].
  { destruct (PyStr.contains (main_file self) src);
      [|apply sleeps_none, quiet_ret].
    apply (sleeps_bind 0 0); [lia | apply sleeps_print_if_verbose|].
    intros _. apply sleeps_none, quiet_os_remove. reflexivity. }
  intros _. apply (sleeps_bind 0 200); [lia | |].
  { apply sleeps_none, quiet_shutil_copyfile. reflexivity. }
  intros _. apply sleeps_reboot_if_enabled.
Qed.

Lemma sleeps_delete_body (src : string) : sleeps_at_most 200 (delete_body self src).
Proof.
  unfold delete_body.
  apply (sleeps_bind 0 200); [lia | apply sleeps_none, quiet_lift|]. intros dst.
  apply (sleeps_bind 0 200); [lia | |].
  { apply sleeps_none, quiet_os_remove. reflexivity. }
  intros _. apply sleeps_reboot_if_enabled.
Qed.

Lemma sleeps_backoff (n : Z) (m : M unit) :
  0 <= n -> sleeps_at_most n m ->
  sleeps_at_most (1000 + n) (print_if_verbose self RETRY_MSG ;; time_sleep 1000 ;; m).
Proof.
  intros Hn Hm.
  apply (sleeps_bind 0 (1000 + n)); [lia | apply sleeps_print_if_verbose|]. intros _.
  apply (sleeps_bind 1000 n); [lia | intros w; cbn; lia | intros _; exact Hm].
Qed.

Lemma sleeps_upload_file_left (src : string) (left : nat) :
  sleeps_at_most (1200 * Z.of_nat left + 200) (upload_file_left left self src).
Proof.
  induction left as [|left IH]; rewrite upload_file_left_unfold.
  - apply (sleeps_try_except 200 0); [lia | apply sleeps_upload_body|].
    apply sleeps_print_if_verbose.
  - replace (1200 * Z.of_nat (S left) + 200)
      with (200 + (1000 + (1200 * Z.of_nat left + 200))) by lia.
    apply sleeps_try_except; [lia | apply sleeps_upload_body|].
    apply sleeps_backoff; [lia | exact IH].
Qed.

Lemma sleeps_delete_file (src : string) (retries : Z) :
  0 <= retries ->
  sleeps_at_most (1200 * retries + 200) (delete_file self src retries).
Proof.
  intros Hr. unfold delete_file. destruct (retries >? 0) eqn:Hpos.
  - replace (1200 * retries + 200)
      with (200 + (1000 + (1200 * Z.of_nat (Z.to_nat (retries - 1)) + 200))) by lia.
    apply sleeps_try_except; [lia | apply sleeps_delete_body|].
    apply sleeps_backoff; [lia|]. apply sleeps_upload_file_left.
  - replace (1200 * retries + 200) with (200 + 0) by lia.
    apply sleeps_try_except; [lia | apply sleeps_delete_body|].
    apply sleeps_print_if_verbose.
Qed.

(** X14. The time a sync action spends sleeping is bounded by its
    budget: with [n >= 0] retries, at most [1200 * n + 200] ms (a
    second of backoff per retry and the two 100 ms waits of a reboot
    signal per attempt). A callback, which uses 4 retries, therefore
    holds its caller asleep for at most 5 seconds. *)
Theorem sync_actions_sleep_bounded (src : string) (n : Z) (w : world) :
  0 <= n ->
  slept (events (upload_file self src n w)) <= 1200 * n + 200 /\
  slept (events (delete_file self src n w)) <= 1200 * n + 200 /\
  slept (events (on_modified self src w)) <= 5000 /\
  slept (events (on_created self src w)) <= 5000 /\
  slept (events (on_deleted self src w)) <= 5000.
Proof.
  intros Hn.
  assert (Hup4 : sleeps_at_most 5000 (upload_file self src 4))
    by apply (sleeps_upload_file_left src 4).
  assert (Hdel4 : sleeps_at_most 5000 (delete_file self src 4))
    by (apply (sleeps_delete_file src 4); lia).
  split; [|split; [|split; [|split]]].
  - pose proof (sleeps_upload_file_left src (Z.to_nat n) w) as H.
    unfold upload_file. lia.
  - apply sleeps_delete_file, Hn.
  - unfold on_modified.
    apply (sleeps_bind 0 5000); [lia | apply sleeps_none, quiet_lift|]. intros d.
    apply (sleeps_bind 0 5000); [lia | apply sleeps_print_if_verbose|].
    intros _. exact Hup4.
  - unfold on_created.
    apply (sleeps_bind 0 5000); [lia | apply sleeps_none, quiet_lift|]. intros d.
    apply (sleeps_bind 0 5000); [lia | apply sleeps_print_if_verbose|].
    intros _. exact Hup4.
  - unfold on_deleted.
    apply (sleeps_bind 0 5000); [lia | apply sleeps_none, quiet_lift|]. intros d.
    apply (sleeps_bind 0 5000); [lia | apply sleeps_print_if_verbose|].
    intros _. exact Hdel4.
Qed.

End Sleep.

Section Callbacks.

Variable self : PyboardSync.

Lemma callback_run (notice : string -> string) (action : M unit) (p dst : string)
    (w : world) :
  get_drive_path self p = Ok dst ->
  (drive_path <- lift (get_drive_path self p) ;;
   print_if_verbose self (notice drive_path) ;;
   action) w
  = (res (action w), after (action w),
     ((if verbose self then [EPrint (notice dst)] else []) ++ events (action w))%list).
Proof.
  intros Hd. rewrite Hd, bind_lift_ok, bind_run, print_if_verbose_run. reflexivity.
Qed.

Lemma callback_unmapped (notice : string -> string) (action : M unit) (p : string)
    (e : exn) (w : world) :
  get_drive_path self p = Raise e ->
  (drive_path <- lift (get_drive_path self p) ;;
   print_if_verbose self (notice drive_path) ;;
   action) w
  = (Raise e, w, []).
Proof. intros Hd. rewrite Hd. reflexivity. Qed.

(** X15. A callback returns normally exactly when the path of the
    event can be mapped; no [OSError] ever reaches the watchdog thread.
    When the path cannot be mapped the callback raises [IndexError]
    before it prints or does anything, and that is what an event for
    the watched directory itself does. *)
Theorem callbacks_raise_iff_unmapped (p : string) (w : world) :
  (res (on_modified self p w) = Ok tt <-> exists d, get_drive_path self p = Ok d) /\
  (res (on_created self p w) = Ok tt <-> exists d, get_drive_path self p = Ok d) /\
  (res (on_deleted self p w) = Ok tt <-> exists d, get_drive_path self p = Ok d) /\
  ((forall d, get_drive_path self p <> Ok d) ->
   on_modified self p w = (Raise IndexError, w, []) /\
   on_created self p w = (Raise IndexError, w, []) /\
   on_deleted self p w = (Raise IndexError, w, [])) /\
  on_modified self (path self) w = (Raise IndexError, w, []) /\
  on_created self (path self) w = (Raise IndexError, w, []) /\
  on_deleted self (path self) w = (Raise IndexError, w, []).
Proof.
  assert (Hroot : get_drive_path self (path self) = Raise IndexError).
  { unfold get_drive_path. rewrite replace_root_itself. reflexivity. }
  assert (Hcases :
            (exists d, get_drive_path self p = Ok d /\
                       res (on_modified self p w) = Ok tt /\
                       res (on_created self p w) = Ok tt /\
                       res (on_deleted self p w) = Ok tt) \/
            (get_drive_path self p = Raise IndexError /\
             on_modified self p w = (Raise IndexError, w, []) /\
             on_created self p w = (Raise IndexError, w, []) /\
             on_deleted self p w = (Raise IndexError, w, []))).
  { destruct (get_drive_path self p) as [d|e] eqn:Hd.
    - left. exists d. split; [reflexivity|].
      unfold on_modified, on_created, on_deleted.
      rewrite !(callback_run _ _ p d w Hd). cbn [res fst].
      repeat split.
      + apply (upload_file_left_returns self p d), Hd.
      + apply (upload_file_left_returns self p d), Hd.
      + apply (delete_file_returns self p d), Hd.
    - right. pose proof (get_drive_path_raises self p e Hd) as ->.
      split; [reflexivity|].
      unfold on_modified, on_created, on_deleted.
      rewrite !(callback_unmapped _ _ p IndexError w Hd). repeat split. }
  split; [|split; [|split; [|split]]].
  - destruct Hcases as [(d & Hd & H1 & _)|(Hd & H1 & _)].
    + split; [intros _; exists d; exact Hd | intros _; exact H1].
    + rewrite H1, Hd. split; [discriminate | intros [d Hx]; discriminate Hx].
  - destruct Hcases as [(d & Hd & _ & H2 & _)|(Hd & _ & H2 & _)].
    + split; [intros _; exists d; exact Hd | intros _; exact H2].
    + rewrite H2, Hd. split; [discriminate | intros [d Hx]; discriminate Hx].
  - destruct Hcases as [(d & Hd & _ & _ & H3)|(Hd & _ & _ & H3)].
    + split; [intros _; exists d; exact Hd | intros _; exact H3].
    + rewrite H3, Hd. split; [discriminate | intros [d Hx]; discriminate Hx].
  - intros Hno. destruct Hcases as [(d & Hd & _)|(_ & H)]; [|exact H].
    destruct (Hno d Hd).
  - unfold on_modified, on_created, on_deleted.
    rewrite !(callback_unmapped _ _ (path self) IndexError w Hroot). repeat split.
Qed.

End Callbacks.

Section CallbacksWitnesses.

Lemma sync_actions_sleep_bounded_witness :
  0 <= 4 /\
  slept (events (upload_file com4_session "/a/x.txt" 4 busy_world)) <= 1200 * 4 + 200 /\
  slept (events (delete_file com4_session "/a/x.txt" 4 busy_world)) <= 1200 * 4 + 200 /\
  slept (events (on_modified com4_session "/a/x.txt" busy_world)) <= 5000 /\
  slept (events (on_created com4_session "/a/x.txt" busy_world)) <= 5000 /\
  slept (events (on_deleted com4_session "/a/x.txt" busy_world)) <= 5000.
Proof.
  assert (H0 : 0 <= 4) by lia.
  split; [exact H0|].
  apply (sync_actions_sleep_bounded com4_session "/a/x.txt" 4 busy_world H0).
Defined.

Lemma callbacks_raise_iff_unmapped_witness :
  (forall d, get_drive_path a_session "/a" <> Ok d) /\
  on_modified a_session "/a" plain_world = (Raise IndexError, plain_world, []) /\
  on_created a_session "/a" plain_world = (Raise IndexError, plain_world, []) /\
  on_deleted a_session "/a" plain_world = (Raise IndexError, plain_world, []) /\
  res (on_modified a_session "/a/x.txt" plain_world) = Ok tt.
Proof.
  assert (H : forall d, get_drive_path a_session "/a" <> Ok d) by (intros d; discriminate).
  split; [exact H|].
  destruct (callbacks_raise_iff_unmapped a_session "/a" plain_world)
    as (_ & _ & _ & Hu & _).
  destruct (Hu H) as (H1 & H2 & H3).
  split; [exact H1|]. split; [exact H2|]. split; [exact H3|].
  apply (proj1 (callbacks_raise_iff_unmapped a_session "/a/x.txt" plain_world)).
  eexists. reflexivity.
Defined.

End CallbacksWitnesses.

(** ** How the sync actions compose *)

Section Compose.

Variable self : PyboardSync.

Lemma reboot_board_refused (p : string) (e : os_error) (m : gmap string string)
    (l : list (option os_error)) :
  port self = Some p ->
  reboot_board self (mkWorld m (Some e :: l))
  = (Raise (OSError e), mkWorld m l, [ESerial (Some p) 115200 1 (Failed e)]).
Proof. intros Hp. unfold reboot_board. rewrite Hp. reflexivity. Qed.

(** X16. When the copy goes through and the port then refuses to
    open, the whole upload is retried: the file is copied a second
    time before the second reboot signal. Two successful copies, two
    constructions of [Serial], one backoff; the destination holds the
    contents of the source. *)
Theorem upload_file_recopies_after_refused_port (src dst data p : string)
    (e : os_error) (l : list (option os_error)) (retries : Z) (w : world) :
  1 <= retries ->
  PyStr.contains (main_file self) src = false ->
  get_drive_path self src = Ok dst ->
  fs w !! src = Some data ->
  src <> dst ->
  reboot self = true ->
  port self = Some p ->
  faults w = None :: Some e :: l ->
  calm 4 l = true ->
  res (upload_file self src retries w) = Ok tt /\
  count is_copy_done (events (upload_file self src retries w)) = 2%nat /\
  count is_reboot_signal (events (upload_file self src retries w)) = 2%nat /\
  count is_backoff (events (upload_file self src retries w)) = 1%nat /\
  fs (after (upload_file self src retries w)) = <[dst := data]> (fs w).
Proof.
  intros Hn Hc Hd Hs Hne Hr Hp Hf Hl. destruct w as [m fl]. cbn [fs faults] in *. subst fl.
  assert (Hb : upload_body self src (mkWorld m (None :: Some e :: l))
               = (Raise (OSError e), mkWorld (<[dst := data]> m) l,
                  [ECopyfile src dst Done; ESerial (Some p) 115200 1 (Failed e)])).
  { unfold upload_body. rewrite Hd, Hc, bind_lift_ok.
    rewrite bind_run. cbn [ret res after events fst snd].
    rewrite bind_run,
      (shutil_copyfile_run src dst data m (None :: Some e :: l) Hs Hne eq_refl).
    cbn [res after events fst snd tl]. rewrite Hr, (reboot_board_refused p e _ l Hp).
    reflexivity. }
  assert (Hs' : fs (mkWorld (<[dst := data]> m) l) !! src = Some data)
    by (cbn [fs]; rewrite lookup_insert_ne by congruence; exact Hs).
  assert (Hport : reboot self = true -> exists q, port self = Some q)
    by (intros _; exists p; exact Hp).
  unfold upload_file.
  replace (Z.to_nat retries) with (S (Z.to_nat (retries - 1))) by lia.
  rewrite upload_file_left_unfold, try_except_run, Hb. cbn [res after events fst snd].
  rewrite backoff_run.
  rewrite (upload_file_left_good_run self src dst data _ _ Hc Hd Hs' Hne Hl Hport).
  cbn [res after events fst snd fs]. rewrite insert_insert_eq.
  unfold reboot_if_enabled, good_reboot. rewrite Hr, Hp.
  destruct (verbose self); repeat split.
Qed.

(** X17. Uploading a file a second time changes nothing: after an
    upload of a file that is not the main file in which nothing fails,
    a second upload of the same path leaves the world the first one
    left. *)
Theorem upload_file_twice (src dst data : string) (n1 n2 : Z) (w : world) :
  PyStr.contains (main_file self) src = false ->
  get_drive_path self src = Ok dst ->
  fs w !! src = Some data ->
  src <> dst ->
  faults w = [] ->
  (reboot self = true -> exists p, port self = Some p) ->
  after (upload_file self src n2 (after (upload_file self src n1 w)))
  = after (upload_file self src n1 w) /\
  fs (after (upload_file self src n1 w)) = <[dst := data]> (fs w).
Proof.
  intros Hc Hd Hs Hne Hf Hport. destruct w as [m fl]. cbn [fs faults] in *. subst fl.
  unfold upload_file.
  rewrite (upload_file_left_good_run self src dst data _ (mkWorld m []) Hc Hd Hs Hne
             eq_refl Hport).
  cbn [after fst snd fs faults tl].
  assert (Hnil : (if reboot self then skipn 3 (@nil (option os_error)) else [])
                 = @nil (option os_error)) by (destruct (reboot self); reflexivity).
  rewrite Hnil.
  assert (Hs' : fs (mkWorld (<[dst := data]> m) []) !! src = Some data)
    by (cbn [fs]; rewrite lookup_insert_ne by congruence; exact Hs).
  rewrite (upload_file_left_good_run self src dst data _ _ Hc Hd Hs' Hne eq_refl Hport).
  cbn [after fst snd fs faults tl]. rewrite Hnil, insert_insert_eq.
  split; reflexivity.
Qed.

(** X18. A delete undoes an upload: when the destination did not exist
    and nothing fails, an upload of a file that is not the main file
    followed by a delete of the same path leaves the world as it was
    before the upload. *)
Theorem delete_file_undoes_upload (src dst data : string) (n1 n2 : Z) (w : world) :
  PyStr.contains (main_file self) src = false ->
  get_drive_path self src = Ok dst ->
  fs w !! src = Some data ->
  fs w !! dst = None ->
  faults w = [] ->
  (reboot self = true -> exists p, port self = Some p) ->
  after (delete_file self src n2 (after (upload_file self src n1 w))) = w.
Proof.
  intros Hc Hd Hs Ho Hf Hport. destruct w as [m fl]. cbn [fs faults] in *. subst fl.
  assert (Hne : src <> dst) by congruence.
  unfold upload_file.
  rewrite (upload_file_left_good_run self src dst data _ (mkWorld m []) Hc Hd Hs Hne
             eq_refl Hport).
  cbn [after fst snd fs faults tl].
  assert (Hnil : (if reboot self then skipn 3 (@nil (option os_error)) else [])
                 = @nil (option os_error)) by (destruct (reboot self); reflexivity).
  rewrite Hnil.
  assert (Ho' : fs (mkWorld (<[dst := data]> m) []) !! dst = Some data)
    by (cbn [fs]; apply lookup_insert_eq).
  rewrite (delete_file_good_run self src dst data n2 _ Hd Ho' eq_refl Hport).
  cbn [after fst snd fs faults tl]. rewrite Hnil, delete_insert_id by exact Ho.
  reflexivity.
Qed.

Lemma os_remove_one_event (p : string) (w : world) :
  exists o, events (os_remove p w) = [ERemove p o].
Proof.
  destruct w as [m l].
  unfold os_remove, next_fault, get_fs, set_fs, emit, raise, bind.
  destruct l as [|[e|] l]; cbn; try (eexists; reflexivity);
    (destruct (m !! p); cbn; eexists; reflexivity).
Qed.

Lemma transport_calls_app (t1 t2 : list event) :
  transport_calls (t1 ++ t2)%list = (transport_calls t1 ++ transport_calls t2)%list.
Proof. unfold transport_calls. apply List.filter_app. Qed.

Lemma no_remove_upload_body (src : string) :
  PyStr.contains (main_file self) src = false ->
  emits_at_most is_remove 0 (upload_body self src).
Proof.
  intros Hc. unfold upload_body. rewrite Hc.
  apply quiet_bind; [apply quiet_lift|]. intros dst.
  apply quiet_bind; [apply quiet_ret|]. intros _.
  apply quiet_bind; [apply quiet_shutil_copyfile; reflexivity|]. intros _.
  destruct (reboot self); [|apply quiet_ret].
  apply quiet_reboot_board; try reflexivity.
  intros s. apply quiet_print_if_verbose. reflexivity.
Qed.

(** X19. Whether an upload removes the destination first depends only
    on the main-file name being a substring of the source path. A path
    that does not contain it never has anything removed, on any
    attempt; a path that contains it anywhere, as [domain.py] contains
    [main.py], has the removal of its destination as the first call of
    the upload. *)
Theorem upload_file_removes_iff_main_substring (src : string) (retries : Z) (w : world) :
  (PyStr.contains (main_file self) src = false ->
   count is_remove (events (upload_file self src retries w)) = O) /\
  (PyStr.contains (main_file self) src = true ->
   forall dst, get_drive_path self src = Ok dst ->
   exists o rest,
     transport_calls (events (upload_file self src retries w)) = ERemove dst o :: rest).
Proof.
  split.
  - intros Hc.
    assert (H : forall k, emits_at_most is_remove 0 (upload_file_left k self src)).
    { induction k as [|k IH]; rewrite upload_file_left_unfold;
        (apply quiet_try_except; [apply no_remove_upload_body, Hc|]).
      - apply quiet_print_if_verbose. reflexivity.
      - apply quiet_bind; [apply quiet_print_if_verbose; reflexivity|]. intros _.
        apply quiet_bind; [apply quiet_emit; reflexivity | intros _; exact IH]. }
    specialize (H (Z.to_nat retries) w). unfold upload_file. lia.
  - intros Hc dst Hd.
    assert (Hb : exists o rest,
               transport_calls (events (upload_body self src w)) = ERemove dst o :: rest).
    { unfold upload_body. rewrite Hd, Hc, bind_lift_ok.
      rewrite bind_run, bind_run, print_if_verbose_run. cbn [res after events fst snd].
      destruct (os_remove_one_event dst w) as [o Ho].
      assert (Hn : transport_calls
                     (if verbose self
                      then [EPrint (String.append "Removing " (main_file self))]
                      else []) = []) by (destruct (verbose self); reflexivity).
      destruct (res (os_remove dst w)) as [[]|ex]; cbn [res after events fst snd].
      - rewrite !transport_calls_app, Hn, Ho. eexists _, _. reflexivity.
      - rewrite !transport_calls_app, Hn, Ho. eexists _, _. reflexivity. }
    destruct Hb as (o & rest & Hb).
    unfold upload_file. rewrite upload_file_left_unfold, try_except_run.
    destruct (res (upload_body self src w)) as [[]|[e| |msg]];
      try (exists o, rest; exact Hb).
    cbn [events snd]. rewrite transport_calls_app, Hb. eexists _, _. reflexivity.
Qed.

End Compose.

Section ComposeWitnesses.

Lemma upload_file_recopies_after_refused_port_witness :
  1 <= 4 /\
  faults reboot_refused_world = [None; Some SerialException] /\
  res (upload_file com4_session "/a/x.txt" 4 reboot_refused_world) = Ok tt /\
  count is_copy_done (events (upload_file com4_session "/a/x.txt" 4 reboot_refused_world))
  = 2%nat /\
  count is_reboot_signal (events (upload_file com4_session "/a/x.txt" 4 reboot_refused_world))
  = 2%nat /\
  count is_backoff (events (upload_file com4_session "/a/x.txt" 4 reboot_refused_world))
  = 1%nat /\
  fs (after (upload_file com4_session "/a/x.txt" 4 reboot_refused_world))
  = <[ "V:x.txt" := "hello" ]> (fs reboot_refused_world).
Proof.
  split; [lia|]. split; [reflexivity|].
  apply (upload_file_recopies_after_refused_port com4_session "/a/x.txt" "V:x.txt"
           "hello" "COM4" SerialException [] 4 reboot_refused_world);
    solve [lia | reflexivity | discriminate].
Defined.

Lemma upload_file_twice_witness :
  fs source_only_world !! "/a/x.txt" = Some "hello" /\
  faults source_only_world = [] /\
  after (upload_file com4_session "/a/x.txt" 4
           (after (upload_file com4_session "/a/x.txt" 4 source_only_world)))
  = after (upload_file com4_session "/a/x.txt" 4 source_only_world) /\
  fs (after (upload_file com4_session "/a/x.txt" 4 source_only_world))
  = <[ "V:x.txt" := "hello" ]> (fs source_only_world).
Proof.
  split; [reflexivity|]. split; [reflexivity|].
  apply (upload_file_twice com4_session "/a/x.txt" "V:x.txt" "hello" 4 4
           source_only_world); try reflexivity; try discriminate.
  intros _. eexists. reflexivity.
Defined.

Lemma delete_file_undoes_upload_witness :
  fs source_only_world !! "V:x.txt" = None /\
  after (delete_file com4_session "/a/x.txt" 4
           (after (upload_file com4_session "/a/x.txt" 4 source_only_world)))
  = source_only_world.
Proof.
  split; [reflexivity|].
  apply (delete_file_undoes_upload com4_session "/a/x.txt" "V:x.txt" "hello" 4 4
           source_only_world); try reflexivity.
  intros _. eexists. reflexivity.
Defined.

Lemma upload_file_removes_iff_main_substring_witness :
  PyStr.contains (main_file a_session) "/a/x.txt" = false /\
  count is_remove (events (upload_file a_session "/a/x.txt" 4 busy_world)) = O /\
  PyStr.contains (main_file a_session) "/a/domain.py" = true /\
  exists o rest,
    transport_calls (events (upload_file a_session "/a/domain.py" 4 domain_world))
    = ERemove "V:domain.py" o :: rest.
Proof.
  split; [reflexivity|]. split.
  - apply (proj1 (upload_file_removes_iff_main_substring a_session "/a/x.txt" 4 busy_world)).
    reflexivity.
  - split; [reflexivity|].
    apply (proj2 (upload_file_removes_iff_main_substring a_session "/a/domain.py" 4
                    domain_world)); reflexivity.
Defined.

End ComposeWitnesses.
